(** * openVulnQuery: the query client (query_client.py)

    A shallow embedding of [openVulnQuery/query_client.py] and the
    properties of its path building, dispatching and result mapping.

    Python values are modelled as follows.
    - Strings are [string]; an advisory format argument is [option string],
      [None] being Python's [None] (the ios handlers pass it on purpose).
    - Dictionaries with string keys are [gmap string _].
    - A parsed JSON body is a value of [json].
    - An exception is a value of [exn]; a call that can raise returns a
      [result].
    - Calls that talk to the network or to the logger run in the monad
      [M], whose state is the list of events performed so far. *)

From Stdlib Require Import ZArith.
From stdpp Require Import gmap strings list.

#[local] Set Warnings "-register-all".

(** ** Python values *)

(** What [Response.json()] can return. A JSON object is kept as the list of
    its items in the iteration order of the resulting [dict]; a float is
    kept as its literal, since the client does no arithmetic. *)
Inductive json : Type :=
  | JNull
  | JBool (b : bool)
  | JInt (n : Z)
  | JFloat (lit : string)
  | JStr (s : string)
  | JArr (items : list json)
  | JObj (fields : list (string * json)).

(** Positional arguments of an exception ([e.args]). *)
Inductive pyarg : Type :=
  | AInt (n : Z)
  | AStr (s : string).

(** The part of [requests.Response] the client reads: [status_code], [text]
    and the outcome of [json()], which is [None] when the body does not
    parse. *)
Record Response : Type := mkResponse {
  status_code : Z;
  text : string;
  body : option json
}.

Inductive exn : Type :=
  | KeyError (msg : string)
  | IndexError (msg : string)
  | TypeError (msg : string)
  | AttributeError (msg : string)
  | ValueError (msg : string)
  (** [requests.exceptions.HTTPError] with its positional arguments and its
      [response] keyword *)
  | HTTPError (args : list pyarg) (response : option Response)
  (** the other [requests] exceptions (ConnectionError, Timeout, ...) *)
  | RequestException (name : string)
  (** whatever else the advisory factory raises *)
  | OtherError (name : string).

Inductive result (A : Type) : Type :=
  | Ok (a : A)
  | Raise (e : exn).
Arguments Ok {A} a.
Arguments Raise {A} e.

Definition rbind {A B} (r : result A) (k : A -> result B) : result B :=
  match r with
  | Ok a => k a
  | Raise e => Raise e
  end.

(** ** Module constants *)

Definition TEMPORAL_FILTER_KEYS : list string := ["startDate"; "endDate"].
Definition PUBLISHED_FIRST : string := "firstpublished".
Definition PUBLISHED_LAST : string := "lastpublished".
Definition TEMPORAL_PUBLICATION_ASPECTS : list string :=
  [PUBLISHED_FIRST; PUBLISHED_LAST].

(** ** Filters *)

(** [dict(pairs)]: the pairs are inserted from left to right, so that a later
    pair overrides an earlier one with the same key. *)
Definition dict {V} (pairs : list (string * V)) : gmap string V :=
  foldl (fun m kv => <[kv.1 := kv.2]> m) ∅ pairs.

(** Python's [zip] stops at the shorter list. *)
Fixpoint zip {A B} (xs : list A) (ys : list B) : list (A * B) :=
  match xs, ys with
  | x :: xs', y :: ys' => (x, y) :: zip xs' ys'
  | _, _ => []
  end.

(** An instance of [Filter] or of [TemporalFilter]: the client only reads the
    attributes [path] and [params]; [params] may be [None]. *)
Record filter : Type := mkFilter {
  path : string;
  params : option (gmap string string)
}.

(** [Filter(path='', params=None)] *)
Definition Filter (path : option string)
    (params : option (gmap string string)) : filter :=
  {| path := default "" path; params := params |}.

(** [TemporalFilter], called with [path] and the further positional
    arguments [args] *)
Definition TemporalFilter (path : string) (args : list string) : filter :=
  {| path := path; params := Some (dict (zip TEMPORAL_FILTER_KEYS args)) |}.

(** [FirstPublished], called with the positional arguments [args] *)
Definition FirstPublished (args : list string) : filter :=
  TemporalFilter PUBLISHED_FIRST args.

(** [LastUpdated], called with the positional arguments [args] *)
Definition LastUpdated (args : list string) : filter :=
  TemporalFilter PUBLISHED_LAST args.

(** ** Effects *)

(** The keyword arguments of one [requests.get] call. *)
Record Request : Type := mkRequest {
  url : string;
  headers : gmap string string;
  query : option (gmap string string)
}.

(** What [requests.get] does with a request: it returns a response, or it
    raises one of its transport exceptions. It never raises [HTTPError]
    itself: only [raise_for_status] does. *)
Inductive outcome : Type :=
  | Replied (r : Response)
  | Failed (name : string).

Inductive event : Type :=
  | LogInfo (msg : string)
  | HttpGet (req : Request).

(** A computation that may log, send requests and raise. The state is the
    list of the events performed so far, oldest first. *)
Definition M (A : Type) : Type := list event -> result A * list event.

Definition ret {A} (a : A) : M A := fun st => (Ok a, st).
Definition raise {A} (e : exn) : M A := fun st => (Raise e, st).
Definition lift {A} (r : result A) : M A := fun st => (r, st).
Definition emit (ev : event) : M unit := fun st => (Ok tt, st ++ [ev]).

Definition bind {A B} (m : M A) (k : A -> M B) : M B :=
  fun st =>
    match m st with
    | (Ok a, st') => k a st'
    | (Raise e, st') => (Raise e, st')
    end.

(** [try: body except ...: handler]. The handler returns [None] for the
    exceptions its [except] clause does not match. *)
Definition try_except {A} (body : M A) (handler : exn -> option (M A)) : M A :=
  fun st =>
    match body st with
    | (Ok a, st') => (Ok a, st')
    | (Raise e, st') =>
        match handler e with
        | Some h => h st'
        | None => (Raise e, st')
        end
    end.

Declare Scope py_scope.
Delimit Scope py_scope with py.
Notation "x <~ m ;; k" := (bind m (fun x => k))
  (at level 100, m at next level, right associativity) : py_scope.
Notation "m ;;; k" := (bind m (fun _ => k))
  (at level 100, right associativity) : py_scope.
Notation "x <?~ r ;; k" := (rbind r (fun x => k))
  (at level 100, r at next level, right associativity) : py_scope.
Open Scope py_scope.

(** A list comprehension over a call that may raise: the calls are made from
    left to right and the first exception ends the comprehension. *)
Fixpoint comprehension {A B} (f : A -> result B) (l : list A)
    : result (list B) :=
  match l with
  | [] => Ok []
  | x :: l' =>
      y <?~ f x ;;
      ys <?~ comprehension f l' ;;
      Ok (y :: ys)
  end.

(** [obj["key"]] on a parsed JSON value. *)
Definition getitem (obj : json) (key : string) : result json :=
  match obj with
  | JObj fields =>
      match list_find (fun kv => kv.1 = key) fields with
      | Some (_, kv) => Ok kv.2
      | None => Raise (KeyError key)
      end
  | JArr _ => Raise (TypeError "list indices must be integers, not str")
  | JStr _ => Raise (TypeError "string indices must be integers")
  | _ => Raise (TypeError "object has no attribute '__getitem__'")
  end.

(** [for adv in obj]: a list yields its items, a dictionary its keys, a
    string its characters; nothing else can be iterated. *)
Definition iterate (obj : json) : result (list json) :=
  match obj with
  | JArr items => Ok items
  | JObj fields => Ok (map (fun kv => JStr kv.1) fields)
  | JStr s =>
      Ok (map (fun c => JStr (String c EmptyString))
              (String.list_ascii_of_string s))
  | _ => Raise (TypeError "object is not iterable")
  end.

(** [a_filter.path] and [a_filter.params], where [a_filter] may be [None]. *)
Definition attr_path (a_filter : option filter) : result string :=
  match a_filter with
  | Some f => Ok (path f)
  | None => Raise (AttributeError "'NoneType' object has no attribute 'path'")
  end.

Definition attr_params (a_filter : option filter)
    : result (option (gmap string string)) :=
  match a_filter with
  | Some f => Ok (params f)
  | None => Raise (AttributeError "'NoneType' object has no attribute 'params'")
  end.

(** [Response.raise_for_status()] of [requests]: client and server error
    codes raise an [HTTPError] that carries the response. *)
Definition raise_for_status (http_error_msg : Response -> string)
    (r : Response) : result unit :=
  if decide (400 <= status_code r < 600)%Z
  then Raise (HTTPError [AStr (http_error_msg r)] (Some r))
  else Ok tt.

(** [Response.json()] *)
Definition json_of (r : Response) : result json :=
  match body r with
  | Some j => Ok j
  | None => Raise (ValueError "No JSON object could be decoded")
  end.

(** The instance attributes the queries read. *)
Record OpenVulnQueryClient : Type := mkClient {
  auth_url : string;
  auth_token : string;
  client_headers : gmap string string
}.

(** The keyword arguments of a [get_by] call; a value is a filter or [None]. *)
Abbreviation kwargs := (gmap string (option filter)).

(** Binding the keyword arguments to the parameters of a handler: the
    positional ones are taken, only [a_filter] is left, which [get_by_all]
    requires and the other handlers default to [None]. *)
Definition bind_kwargs (required : bool) (kw : kwargs)
    : result (option filter) :=
  if decide (dom kw ⊆ ({["a_filter"]} : gset string)) then
    match kw !! "a_filter" with
    | Some f => Ok f
    | None =>
        if required
        then Raise (TypeError
                      "get_by_all() takes exactly 4 arguments (3 given)")
        else Ok None
    end
  else Raise (TypeError "got an unexpected keyword argument").

(** ** A concrete setting

    The format tokens as the docstring of [ensure_adv_format_token] lists
    them, a factory that pairs the raw entry with the token, and a small
    server. It is used to run the client on concrete calls. *)

Module Sample.

Definition ADV_TOKENS : list string := ["cvrf"; "oval"; "ios"].

Definition API_URL : string := "https://api.example.org/advisories".

Definition Advisory : Type := json * string.

Definition advisory_factory (adv : json) (adv_format : string)
    : result Advisory :=
  Ok (adv, adv_format).

Definition entry (id : string) : json := JObj [("advisoryId", JStr id)].

(** [ios] is answered by 404, [iosxe] by two advisories, one advisory id by
    a list, and nothing else is reachable. *)
Definition requests_get (history : list event) (req : Request) : outcome :=
  if decide (url req = API_URL +:+ "/ios") then
    Replied {| status_code := 404; text := "Not Found"; body := None |}
  else if decide (url req = API_URL +:+ "/iosxe") then
    Replied {| status_code := 200; text := "";
               body := Some (JObj [("advisories",
                                    JArr [entry "sa-1"; entry "sa-2"])]) |}
  else if decide (url req = API_URL +:+ "/cvrf/advisory/sa-1") then
    Replied {| status_code := 200; text := "";
               body := Some (JArr [entry "sa-1"]) |}
  else Failed "ConnectionError".

Definition http_error_msg (r : Response) : string :=
  "Client Error: " +:+ text r.

Definition client : OpenVulnQueryClient :=
  {| auth_url := "https://auth.example.org/token";
     auth_token := "token";
     client_headers := dict [("Authorization", "Bearer token");
                             ("User-Agent", "TestApp")] |}.

(** A network that cannot be reached, and one that answers every request
    with an empty JSON object. *)
Definition requests_get_down (history : list event) (req : Request)
    : outcome :=
  Failed "ConnectionError".

Definition requests_get_bare (history : list event) (req : Request)
    : outcome :=
  Replied {| status_code := 200; text := "{}"; body := Some (JObj []) |}.

(** A factory that rejects the entries that are not JSON objects. *)
Definition strict_factory (adv : json) (adv_format : string)
    : result Advisory :=
  match adv with
  | JObj _ => Ok (adv, adv_format)
  | _ => Raise (OtherError "not an advisory")
  end.

Definition REQUEST_TOKEN_URL : string := "https://auth.example.org/token".

Definition get_oauth_token (client_id client_secret request_token_url : string)
    : result string :=
  if decide (client_secret = "") then Raise (KeyError "access_token")
  else Ok ("token-of-" +:+ client_id).

Definition rest_with_auth_headers (auth_token user_agent : string)
    : gmap string string :=
  dict [("Authorization", "Bearer " +:+ auth_token);
        ("User-Agent", user_agent)].

(** A network that answers every request with one advisory. *)
Definition requests_get_one (history : list event) (req : Request)
    : outcome :=
  Replied {| status_code := 200; text := "";
             body := Some (JObj [("advisories", JArr [entry "sa-1"])]) |}.

End Sample.

(** ** Construction of the client *)

Section Construction.

(** [config.REQUEST_TOKEN_URL], [authorization.get_oauth_token] (called with
    the client id, the client secret and the [request_token_url] keyword; it
    returns the token or raises) and [rest_api.rest_with_auth_headers]. *)
Variable REQUEST_TOKEN_URL : string.
Variable get_oauth_token : string -> string -> string -> result string.
Variable rest_with_auth_headers : string -> string -> gmap string string.

(** [OpenVulnQueryClient.__init__(client_id, client_secret, auth_url=None,
    user_agent='TestApp')]. An [auth_url] that is [None] or the empty string
    is false and gives way to the configured URL. The set-up of the logging
    module is not part of the model. *)
Definition OpenVulnQueryClient_init (client_id client_secret : string)
    (auth_url user_agent : option string) : result OpenVulnQueryClient :=
  let user_agent := default "TestApp" user_agent in
  let auth_url :=
    match auth_url with
    | Some u => if decide (u = "") then REQUEST_TOKEN_URL else u
    | None => REQUEST_TOKEN_URL
    end in
  auth_token <?~ get_oauth_token client_id client_secret auth_url ;;
  Ok {| auth_url := auth_url; auth_token := auth_token;
        client_headers := rest_with_auth_headers auth_token user_agent |}.

End Construction.

(** ** The client *)

Section Client.

(** [constants.ADVISORY_FORMAT_TOKENS]: the module that defines it is
    outside this file, so the tuple of format tokens is a parameter. *)
Variable ADV_TOKENS : list string.

(** [config.API_URL] *)
Variable API_URL : string.

(** The advisory objects and [advisory.advisory_factory], which builds one
    from a raw entry and a format token, or raises. *)
Variable Advisory : Type.
Variable advisory_factory : json -> string -> result Advisory.

(** The network: what [requests.get] answers to a request, given the
    events that came before it. *)
Variable requests_get : list event -> Request -> outcome.

(** The message that [raise_for_status] puts into its exception. *)
Variable http_error_msg : Response -> string.

(** [adv_format if adv_format in ADV_TOKENS else ADV_TOKENS[-1]]; [None]
    is in no tuple of strings, and the index [-1] of an empty tuple is
    out of range. *)
Definition ensure_adv_format_token (adv_format : option string)
    : result string :=
  match adv_format with
  | Some s =>
      if decide (s ∈ ADV_TOKENS) then Ok s
      else match last ADV_TOKENS with
           | Some t => Ok t
           | None => Raise (IndexError "tuple index out of range")
           end
  | None =>
      match last ADV_TOKENS with
      | Some t => Ok t
      | None => Raise (IndexError "tuple index out of range")
      end
  end.

Definition get_request (self : OpenVulnQueryClient) (path : string)
    (params : option (gmap string string)) : M json :=
  emit (LogInfo ("Sending Get Request " +:+ path)) ;;;
  let req_url := API_URL +:+ "/" +:+ path in
  let req := {| url := req_url; headers := client_headers self;
                query := params |} in
  r <~ (fun st =>
          match requests_get st req with
          | Replied r => (Ok r, st ++ [HttpGet req])
          | Failed name => (Raise (RequestException name), st ++ [HttpGet req])
          end) ;;
  lift (raise_for_status http_error_msg r) ;;;
  lift (json_of r).

(** The request that [get_request] sends for a path and
    parameters. *)
Definition request_for (self : OpenVulnQueryClient) (path : string)
    (params : option (gmap string string)) : Request :=
  {| url := API_URL +:+ "/" +:+ path; headers := client_headers self;
     query := params |}.

Definition advisory_list (self : OpenVulnQueryClient) (advisories : json)
    (adv_format : option string) : result (list Advisory) :=
  adv_format <?~ ensure_adv_format_token adv_format ;;
  entries <?~ iterate advisories ;;
  comprehension (fun adv => advisory_factory adv adv_format) entries.

Definition get_by_all (self : OpenVulnQueryClient) (adv_format : option string)
    (all_adv : string) (a_filter : option filter) : M (list Advisory) :=
  tok <~ lift (ensure_adv_format_token adv_format) ;;
  filter_path <~ lift (attr_path a_filter) ;;
  let req_path := tok +:+ "/" +:+ all_adv +:+ "/" +:+ filter_path in
  filter_params <~ lift (attr_params a_filter) ;;
  advisories <~ get_request self req_path filter_params ;;
  entries <~ lift (getitem advisories "advisories") ;;
  lift (advisory_list self entries adv_format).

Definition get_by_cve (self : OpenVulnQueryClient) (adv_format : option string)
    (cve : string) (a_filter : option filter) : M (list Advisory) :=
  tok <~ lift (ensure_adv_format_token adv_format) ;;
  let req_path := tok +:+ "/cve/" +:+ cve in
  advisories <~ get_request self req_path None ;;
  entries <~ lift (getitem advisories "advisories") ;;
  lift (advisory_list self entries adv_format).

Definition get_by_advisory (self : OpenVulnQueryClient)
    (adv_format : option string) (an_advisory : string)
    (a_filter : option filter) : M (list Advisory) :=
  tok <~ lift (ensure_adv_format_token adv_format) ;;
  let req_path := tok +:+ "/advisory/" +:+ an_advisory in
  response <~ get_request self req_path None ;;
  let advisories := JObj [("advisories", JArr [response])] in
  entries <~ lift (getitem advisories "advisories") ;;
  lift (advisory_list self entries adv_format).

Definition get_by_severity (self : OpenVulnQueryClient)
    (adv_format : option string) (severity : string)
    (a_filter : option filter) : M (list Advisory) :=
  tok <~ lift (ensure_adv_format_token adv_format) ;;
  filter_path <~ lift (match a_filter with
                       | None => Ok (path (Filter None None))
                       | Some _ => attr_path a_filter
                       end) ;;
  let req_path := tok +:+ "/severity/" +:+ severity +:+ "/" +:+ filter_path in
  filter_params <~ lift (attr_params a_filter) ;;
  advisories <~ get_request self req_path filter_params ;;
  entries <~ lift (getitem advisories "advisories") ;;
  lift (advisory_list self entries adv_format).

Definition get_by_year (self : OpenVulnQueryClient) (adv_format : option string)
    (year : string) (a_filter : option filter) : M (list Advisory) :=
  tok <~ lift (ensure_adv_format_token adv_format) ;;
  let req_path := tok +:+ "/year/" +:+ year in
  advisories <~ get_request self req_path None ;;
  entries <~ lift (getitem advisories "advisories") ;;
  lift (advisory_list self entries adv_format).

Definition get_by_latest (self : OpenVulnQueryClient)
    (adv_format : option string) (latest : string)
    (a_filter : option filter) : M (list Advisory) :=
  tok <~ lift (ensure_adv_format_token adv_format) ;;
  let req_path := tok +:+ "/latest/" +:+ latest in
  advisories <~ get_request self req_path None ;;
  entries <~ lift (getitem advisories "advisories") ;;
  lift (advisory_list self entries adv_format).

Definition get_by_product (self : OpenVulnQueryClient)
    (adv_format : option string) (product_name : string)
    (a_filter : option filter) : M (list Advisory) :=
  tok <~ lift (ensure_adv_format_token adv_format) ;;
  let req_path := tok +:+ "/product" in
  advisories <~ get_request self req_path
                  (Some (dict [("product", product_name)])) ;;
  entries <~ lift (getitem advisories "advisories") ;;
  lift (advisory_list self entries adv_format).

(** The [except requests.exceptions.HTTPError as e] clause of the two ios
    handlers: it reads [e.response.status_code] and [e.response.text], and
    raises a new [HTTPError] with these two as positional arguments (and so
    without a [response]). *)
Definition rewrap_http_error (e : exn) : option (M (list Advisory)) :=
  match e with
  | HTTPError _ response =>
      Some (match response with
            | Some r =>
                raise (HTTPError [AInt (status_code r); AStr (text r)] None)
            | None =>
                raise (AttributeError
                         "'NoneType' object has no attribute 'status_code'")
            end)
  | _ => None
  end.

Definition get_by_ios_xe (self : OpenVulnQueryClient)
    (adv_format : option string) (ios_version : string)
    (a_filter : option filter) : M (list Advisory) :=
  let req_path := "iosxe" in
  try_except
    (advisories <~ get_request self req_path
                     (Some (dict [("version", ios_version)])) ;;
     entries <~ lift (getitem advisories "advisories") ;;
     lift (advisory_list self entries None))
    rewrap_http_error.

Definition get_by_ios (self : OpenVulnQueryClient)
    (adv_format : option string) (ios_version : string)
    (a_filter : option filter) : M (list Advisory) :=
  let req_path := "ios" in
  try_except
    (advisories <~ get_request self req_path
                     (Some (dict [("version", ios_version)])) ;;
     entries <~ lift (getitem advisories "advisories") ;;
     lift (advisory_list self entries None))
    rewrap_http_error.

(** The two platform handlers and the paths they request. *)
Definition ios_handler (xe : bool) :=
  if xe then get_by_ios_xe else get_by_ios.
Definition ios_path (xe : bool) : string :=
  if xe then "iosxe" else "ios".

(** A bound method called as [method(format, aspect, **kwargs)]. *)
Definition callable : Type :=
  option string -> string -> kwargs -> M (list Advisory).

Definition bound (required : bool)
    (method : option string -> string -> option filter -> M (list Advisory))
    : callable :=
  fun format aspect kw =>
    a_filter <~ lift (bind_kwargs required kw) ;;
    method format aspect a_filter.

Definition trampoline (self : OpenVulnQueryClient) : gmap string callable :=
  dict [ ("all", bound true (get_by_all self));
         ("cve", bound false (get_by_cve self));
         ("advisory", bound false (get_by_advisory self));
         ("severity", bound false (get_by_severity self));
         ("year", bound false (get_by_year self));
         ("latest", bound false (get_by_latest self));
         ("product", bound false (get_by_product self));
         ("ios_xe", bound false (get_by_ios_xe self));
         ("ios", bound false (get_by_ios self)) ].

Definition get_by (self : OpenVulnQueryClient) (topic : string)
    (format : option string) (aspect : string) (kw : kwargs)
    : M (list Advisory) :=
  match trampoline self !! topic with
  | None =>
      raise (KeyError ("REST API 'topic' (" +:+ topic +:+
                       ") not (yet) supported."))
  | Some method => method format aspect kw
  end.

(** The events of one [get_request] call for a path and parameters. *)
Definition request_events (self : OpenVulnQueryClient) (path : string)
    (params : option (gmap string string)) : list event :=
  [LogInfo ("Sending Get Request " +:+ path);
   HttpGet (request_for self path params)].

(** * Properties *)

(** ** The client, for any tokens, factory and network *)

Lemma ensure_member (s : string) :
  s ∈ ADV_TOKENS → ensure_adv_format_token (Some s) = Ok s.
Proof. intros Hin. unfold ensure_adv_format_token. by rewrite decide_True. Qed.

Lemma ensure_fallback (adv_format : option string) (t : string) :
  last ADV_TOKENS = Some t →
  (∀ s, adv_format = Some s → s ∉ ADV_TOKENS) →
  ensure_adv_format_token adv_format = Ok t.
Proof.
  intros Hlast Hout. unfold ensure_adv_format_token.
  destruct adv_format as [s|]; rewrite Hlast; [|done].
  rewrite decide_False; [done|]. by apply Hout.
Qed.

Lemma ensure_None_inv (t : string) :
  ensure_adv_format_token None = Ok t → last ADV_TOKENS = Some t.
Proof.
  unfold ensure_adv_format_token. destruct (last ADV_TOKENS); congruence.
Qed.

(** C1: with a non-empty tuple of tokens, [ensure_adv_format_token] always
    returns: a token of the tuple is returned as it is, and every other
    input, [None] included, gives the last token of the tuple. *)
Theorem ensure_adv_format_token_total (s : string) :
  ADV_TOKENS ≠ [] →
  ∃ t, last ADV_TOKENS = Some t ∧
       (s ∈ ADV_TOKENS → ensure_adv_format_token (Some s) = Ok s) ∧
       (s ∉ ADV_TOKENS → ensure_adv_format_token (Some s) = Ok t) ∧
       ensure_adv_format_token None = Ok t ∧
       (∃ r, ensure_adv_format_token (Some s) = Ok r).
Proof.
  intros Hne. apply last_is_Some in Hne as [t Ht]. exists t.
  split; [done|]. split; [apply ensure_member|].
  split; [|split].
  - intros Hout. apply ensure_fallback; [done|]. by intros ? [= ->].
  - by apply ensure_fallback.
  - destruct (decide (s ∈ ADV_TOKENS)) as [Hin|Hout].
    + exists s. by apply ensure_member.
    + exists t. apply ensure_fallback; [done|]. by intros ? [= ->].
Qed.

Lemma comprehension_Ok {A B} (f : A -> result B) (l : list A) (k : list B) :
  comprehension f l = Ok k ↔ Forall2 (fun x y => f x = Ok y) l k.
Proof.
  split.
  - revert k. induction l as [|x l IH]; intros k; simpl.
    + intros [= <-]. constructor.
    + destruct (f x) as [y|e] eqn:Hfx; simpl; [|done].
      destruct (comprehension f l) as [ys|e] eqn:Hl; simpl; [|done].
      intros [= <-]. constructor; [done|]. by apply IH.
  - induction 1 as [|x y l k Hxy _ IH]; simpl; [done|].
    by rewrite Hxy, IH.
Qed.

Lemma advisory_list_Ok self (advisories : json) (adv_format : option string)
    (objs : list Advisory) :
  advisory_list self advisories adv_format = Ok objs ↔
  ∃ tok entries,
    ensure_adv_format_token adv_format = Ok tok ∧
    iterate advisories = Ok entries ∧
    Forall2 (fun adv obj => advisory_factory adv tok = Ok obj) entries objs.
Proof.
  unfold advisory_list. split.
  - destruct (ensure_adv_format_token adv_format) as [tok|] eqn:Htok; simpl;
      [|done].
    destruct (iterate advisories) as [entries|] eqn:Hit; simpl; [|done].
    intros Hc. exists tok, entries. by rewrite <- comprehension_Ok.
  - intros (tok & entries & -> & -> & HF); simpl.
    by rewrite comprehension_Ok.
Qed.

(** C9: on a list of raw entries, [advisory_list] returns a list exactly
    when the format normalizes to a token and the factory accepts every
    entry with it; the list then has the length of the input, and its
    i-th element is what the factory builds from the i-th entry with the
    normalized token. *)
Theorem advisory_list_maps_in_order self (entries : list json)
    (adv_format : option string) (objs : list Advisory) :
  advisory_list self (JArr entries) adv_format = Ok objs ↔
  ∃ tok, ensure_adv_format_token adv_format = Ok tok ∧
         length objs = length entries ∧
         ∀ i adv, entries !! i = Some adv →
                  ∃ obj, objs !! i = Some obj ∧
                         advisory_factory adv tok = Ok obj.
Proof.
  rewrite advisory_list_Ok. split.
  - intros (tok & entries' & Htok & [= <-] & HF). exists tok.
    split; [done|]. split; [symmetry; by eapply Forall2_length|].
    intros i adv Hi.
    destruct (Forall2_lookup_l _ _ _ _ _ HF Hi) as (obj & ? & ?). eauto.
  - intros (tok & Htok & Hlen & Hall). exists tok, entries.
    split; [done|]. split; [done|].
    apply Forall2_same_length_lookup. split; [done|].
    intros i adv obj Hi Ho.
    destruct (Hall i adv Hi) as (obj' & Ho' & ?). congruence.
Qed.

(** [get_request] logs the path and sends exactly one request, whatever
    the answer is. *)
Lemma get_request_events self path params st :
  ∃ r, get_request self path params st =
         (r, st ++ [LogInfo ("Sending Get Request " +:+ path);
                    HttpGet (request_for self path params)]).
Proof.
  unfold get_request, bind, emit, lift, request_for.
  rewrite <- (assoc_L (++)). simpl.
  destruct (requests_get _ _) as [r|name]; [|by eexists].
  destruct (raise_for_status _ r); by eexists.
Qed.

(** The answer of [get_request] in terms of the answer of the network. *)
Lemma get_request_Ok self path params st (j : json) st' :
  get_request self path params st = (Ok j, st') ↔
  ∃ r, requests_get (st ++ [LogInfo ("Sending Get Request " +:+ path)])
                    (request_for self path params) = Replied r ∧
       ¬ (400 <= status_code r < 600)%Z ∧ body r = Some j ∧
       st' = st ++ [LogInfo ("Sending Get Request " +:+ path);
                    HttpGet (request_for self path params)].
Proof.
  unfold get_request, bind, emit, lift, request_for, raise_for_status, json_of.
  rewrite <- (assoc_L (++)). simpl. split.
  - destruct (requests_get _ _) as [r|name] eqn:Hget; [|done].
    destruct (decide _) as [|Hok]; [done|].
    destruct (body r) as [j'|] eqn:Hbody; [|done].
    intros [= <- <-]. by exists r.
  - intros (r & -> & Hok & Hbody & ->).
    rewrite decide_False by done. by rewrite Hbody.
Qed.

(** An [HTTPError] out of [get_request] comes from [raise_for_status], and
    so carries the response. *)
Lemma get_request_HTTPError self path params st args response st' :
  get_request self path params st = (Raise (HTTPError args response), st') →
  ∃ r, response = Some r ∧ args = [AStr (http_error_msg r)] ∧
       (400 <= status_code r < 600)%Z ∧
       requests_get (st ++ [LogInfo ("Sending Get Request " +:+ path)])
                    (request_for self path params) = Replied r.
Proof.
  unfold get_request, bind, emit, lift, raise_for_status, json_of, request_for.
  destruct (requests_get _ _) as [r|name] eqn:Hget; [|done].
  destruct (decide _) as [Hko|Hok].
  - intros [= <- <- <-]. by exists r.
  - by destruct (body r).
Qed.

Lemma bind_kwargs_empty (required : bool) :
  bind_kwargs required ∅ =
    if required
    then Raise (TypeError "get_by_all() takes exactly 4 arguments (3 given)")
    else Ok None.
Proof.
  unfold bind_kwargs. rewrite decide_True by set_solver.
  by rewrite lookup_empty.
Qed.

(** The dispatch of [get_by] on the topics used below. *)
Lemma get_by_dispatch self format aspect kw :
  get_by self "cve" format aspect kw =
    bound false (get_by_cve self) format aspect kw ∧
  get_by self "advisory" format aspect kw =
    bound false (get_by_advisory self) format aspect kw ∧
  get_by self "severity" format aspect kw =
    bound false (get_by_severity self) format aspect kw ∧
  get_by self "ios_xe" format aspect kw =
    bound false (get_by_ios_xe self) format aspect kw ∧
  get_by self "ios" format aspect kw =
    bound false (get_by_ios self) format aspect kw.
Proof. repeat split; reflexivity. Qed.

(** C8: [get_by("cve", "cvrf", "CVE-2015-1234")], where [cvrf] is a format
    token, logs and sends exactly one request: a GET of the path
    [cvrf/cve/CVE-2015-1234] under the base URL, without query
    parameters. *)
Theorem get_by_cve_request self st :
  "cvrf" ∈ ADV_TOKENS →
  ∃ r, get_by self "cve" (Some "cvrf") "CVE-2015-1234" ∅ st =
         (r, st ++ [LogInfo "Sending Get Request cvrf/cve/CVE-2015-1234";
                    HttpGet {| url := API_URL +:+ "/cvrf/cve/CVE-2015-1234";
                               headers := client_headers self;
                               query := None |}]).
Proof.
  intros Hin.
  destruct (get_by_dispatch self (Some "cvrf") "CVE-2015-1234" ∅) as (-> & _).
  unfold bound, bind at 1, lift at 1. rewrite bind_kwargs_empty.
  unfold get_by_cve, bind at 1, lift at 1. rewrite (ensure_member _ Hin).
  unfold bind at 1.
  destruct (get_request_events self ("cvrf" +:+ "/cve/" +:+ "CVE-2015-1234")
              None st) as [r Hr].
  rewrite Hr. destruct r as [j|e]; [|by eexists].
  unfold bind, lift. destruct (getitem j "advisories"); by eexists.
Qed.

(** C2: [get_by("severity", "oval", "high")] without a filter sends no
    request. The path is built from the empty path of [Filter()], but then
    [a_filter.params] is read from [None]: the call raises before
    [get_request] is reached (an [IndexError] comes first when there is no
    format token at all). *)
Theorem get_by_severity_without_filter self st :
  get_by self "severity" (Some "oval") "high" ∅ st =
    (Raise (match last ADV_TOKENS with
            | Some _ =>
                AttributeError "'NoneType' object has no attribute 'params'"
            | None => IndexError "tuple index out of range"
            end), st).
Proof.
  destruct (get_by_dispatch self (Some "oval") "high" ∅) as (_ & _ & -> & _).
  unfold bound, bind at 1, lift at 1. rewrite bind_kwargs_empty.
  unfold get_by_severity, bind, lift, ensure_adv_format_token. simpl.
  destruct (decide _) as [Hin|Hout].
  - destruct (last ADV_TOKENS) eqn:Hlast; [done|].
    apply last_None in Hlast. rewrite Hlast in Hin. by apply elem_of_nil in Hin.
  - by destruct (last ADV_TOKENS).
Qed.

(** C5: a topic that is not one of the nine keys of the dispatch table has
    no handler there, and [get_by] raises a [KeyError] whose message
    contains the topic; nothing is logged or sent. *)
Theorem get_by_unknown_topic self (topic : string) format aspect kw st :
  topic ∉ ["all"; "cve"; "advisory"; "severity"; "year"; "latest";
           "product"; "ios_xe"; "ios"] →
  trampoline self !! topic = None ∧
  get_by self topic format aspect kw st =
    (Raise (KeyError ("REST API 'topic' (" +:+ topic +:+
                      ") not (yet) supported.")), st).
Proof.
  intros Hout.
  assert (trampoline self !! topic = None) as Hnone.
  { unfold trampoline, dict. simpl.
    repeat (apply not_elem_of_cons in Hout as [? Hout]).
    by rewrite !lookup_insert_ne, lookup_empty by done. }
  split; [done|]. unfold get_by.
  by destruct (_ !! topic).
Qed.

(** C3: when [get_request] raises an [HTTPError] in [get_by_ios] or
    [get_by_ios_xe], the error carries the response, and the handler
    raises in its place a new [HTTPError] whose arguments are the status
    code and the text of that response; the new error is not the
    original one. *)
Theorem ios_rewraps_http_error (xe : bool) self adv_format version a_filter
    st args response st' :
  get_request self (ios_path xe) (Some (dict [("version", version)])) st =
    (Raise (HTTPError args response), st') →
  ∃ r, response = Some r ∧
       ios_handler xe self adv_format version a_filter st =
         (Raise (HTTPError [AInt (status_code r); AStr (text r)] None), st') ∧
       HTTPError [AInt (status_code r); AStr (text r)] None ≠
         HTTPError args response.
Proof.
  intros Hreq.
  destruct (get_request_HTTPError _ _ _ _ _ _ _ Hreq) as (r & -> & -> & _).
  exists r. split; [done|]. split; [|done].
  destruct xe; simpl in Hreq |- *;
    unfold get_by_ios_xe, get_by_ios, try_except, bind at 1;
    by rewrite Hreq.
Qed.

Lemma getitem_single (key : string) (v : json) :
  getitem (JObj [(key, v)]) key = Ok v.
Proof. unfold getitem. simpl. by rewrite decide_True. Qed.

(** C4: [get_by_advisory] returns exactly when the format normalizes to a
    token, the request for [{token}/advisory/{id}] is answered by a JSON
    value, whatever its shape, and the factory accepts that value as one
    entry; the result is then the list of the one object the factory
    builds from the whole response. *)
Theorem get_by_advisory_singleton self adv_format an_advisory a_filter
    st (objs : list Advisory) st' :
  get_by_advisory self adv_format an_advisory a_filter st = (Ok objs, st') ↔
  ∃ tok response obj,
    ensure_adv_format_token adv_format = Ok tok ∧
    get_request self (tok +:+ "/advisory/" +:+ an_advisory) None st =
      (Ok response, st') ∧
    advisory_factory response tok = Ok obj ∧
    objs = [obj].
Proof.
  unfold get_by_advisory, bind at 1, lift at 1.
  destruct (ensure_adv_format_token adv_format) as [tok|e] eqn:Htok.
  - unfold bind at 1.
    destruct (get_request self _ None st) as [[response|e] st1] eqn:Hreq.
    + unfold bind, lift. rewrite getitem_single.
      unfold advisory_list. rewrite Htok. simpl.
      destruct (advisory_factory response tok) as [obj|e] eqn:Hobj; simpl.
      * split.
        -- intros [= <- <-]. by exists tok, response, obj.
        -- intros (tok' & response' & obj' & [= <-] & Hreq' & Hobj' & ->).
           rewrite Hreq in Hreq'. injection Hreq' as <- <-. congruence.
      * split; [done|].
        intros (tok' & response' & obj' & [= <-] & Hreq' & Hobj' & _).
        rewrite Hreq in Hreq'. injection Hreq' as <- <-. congruence.
    + split; [done|].
      intros (tok' & response' & obj' & [= <-] & Hreq' & _).
      rewrite Hreq in Hreq'. done.
  - split; [done|]. by intros (? & ? & ? & ? & _).
Qed.

Lemma dict_single {V} (key : string) (v : V) : dict [(key, v)] = {[ key := v ]}.
Proof. unfold dict. simpl. apply insert_empty. Qed.

(** The [except] clause of the platform handlers changes neither a
    returned value nor the events. *)
Lemma try_rewrap_Ok (body : M (list Advisory)) st (objs : list Advisory) st' :
  try_except body (rewrap_http_error) st = (Ok objs, st') ↔
  body st = (Ok objs, st').
Proof.
  unfold try_except. destruct (body st) as [[a|e] s]; [done|].
  destruct e as [| | | | |? []| |]; by simpl.
Qed.

Lemma try_rewrap_events (body : M (list Advisory)) st r st' :
  body st = (r, st') →
  ∃ r', try_except body (rewrap_http_error) st = (r', st').
Proof.
  intros Hbody. unfold try_except. rewrite Hbody.
  destruct r as [a|e]; [by eexists|].
  destruct e as [| | | | |? []| |]; by eexists.
Qed.

(** The events of a platform handler are those of its one request. *)
Lemma ios_handler_events (xe : bool) self adv_format version a_filter st :
  ∃ r, ios_handler xe self adv_format version a_filter st =
         (r, st ++ [LogInfo ("Sending Get Request " +:+ ios_path xe);
                    HttpGet (request_for self (ios_path xe)
                               (Some {[ "version" := version ]}))]).
Proof.
  rewrite <- dict_single.
  destruct (get_request_events self (ios_path xe)
              (Some (dict [("version", version)])) st) as [r Hr].
  destruct xe; simpl in Hr |- *;
    unfold get_by_ios_xe, get_by_ios;
    (destruct r as [j|e];
     [destruct (getitem j "advisories") as [advisories|e] eqn:Hget|];
     eapply try_rewrap_events; unfold bind at 1; rewrite Hr;
     unfold bind, lift; try rewrite Hget; reflexivity).
Qed.

(** What a platform handler returns when it returns. *)
Lemma ios_handler_Ok (xe : bool) self adv_format version a_filter st
    (objs : list Advisory) st' :
  ios_handler xe self adv_format version a_filter st = (Ok objs, st') ↔
  ∃ response advisories,
    get_request self (ios_path xe) (Some {[ "version" := version ]}) st =
      (Ok response, st') ∧
    getitem response "advisories" = Ok advisories ∧
    advisory_list self advisories None = Ok objs.
Proof.
  rewrite <- dict_single.
  destruct xe; simpl; unfold get_by_ios_xe, get_by_ios;
    rewrite try_rewrap_Ok; unfold bind at 1;
    (destruct (get_request self _ _ st) as [[response|e] st1];
     [|split; [done|]; by intros (? & ? & [= <-] & _)]);
    unfold bind, lift;
    (destruct (getitem response "advisories") as [advisories|e] eqn:Hget;
     [|split; [done|]; intros (? & ? & [= <- <-] & ? & _); congruence]);
    (split; [intros [= Hlist <-]; by exists response, advisories|];
     intros (? & ? & [= <- <-] & ? & ?); congruence).
Qed.

(** C7: [get_by_ios] and [get_by_ios_xe] do not look at their format (nor
    at their filter). They log and send one request, for the fixed path
    [ios] or [iosxe] with the version as the only query parameter. When
    they return, the result is built by the factory, entry by entry, with
    the last format token, whatever format was passed. *)
Theorem ios_ignores_format (xe : bool) self adv_format version a_filter st :
  ios_handler xe self adv_format version a_filter st =
    ios_handler xe self None version None st ∧
  (∃ r, ios_handler xe self adv_format version a_filter st =
          (r, st ++ [LogInfo ("Sending Get Request " +:+ ios_path xe);
                     HttpGet {| url := API_URL +:+ "/" +:+ ios_path xe;
                                headers := client_headers self;
                                query :=
                                  Some {[ "version" := version ]} |}])) ∧
  (∀ (objs : list Advisory) st',
     ios_handler xe self adv_format version a_filter st = (Ok objs, st') ↔
     ∃ response advisories entries tok,
       get_request self (ios_path xe) (Some {[ "version" := version ]}) st =
         (Ok response, st') ∧
       getitem response "advisories" = Ok advisories ∧
       iterate advisories = Ok entries ∧
       last ADV_TOKENS = Some tok ∧
       Forall2 (fun adv obj => advisory_factory adv tok = Ok obj)
               entries objs).
Proof.
  split; [by destruct xe|]. split; [apply ios_handler_events|].
  intros objs st'. rewrite ios_handler_Ok. split.
  - intros (response & advisories & Hreq & Hget & Hlist).
    apply advisory_list_Ok in Hlist as (tok & entries & Htok & Hit & HF).
    exists response, advisories, entries, tok.
    by apply ensure_None_inv in Htok.
  - intros (response & advisories & entries & tok & Hreq & Hget & Hit
            & Hlast & HF).
    exists response, advisories. split; [done|]. split; [done|].
    apply advisory_list_Ok. exists tok, entries.
    split; [by apply ensure_fallback|done].
Qed.

(** ** Further properties of the client *)

(** X1: whatever [ensure_adv_format_token] returns is one of the format
    tokens, and normalizing it again gives it back. *)
Theorem ensure_adv_format_token_member (adv_format : option string)
    (t : string) :
  ensure_adv_format_token adv_format = Ok t →
  t ∈ ADV_TOKENS ∧ ensure_adv_format_token (Some t) = Ok t.
Proof.
  intros Ht.
  assert (t ∈ ADV_TOKENS) as Hin.
  { unfold ensure_adv_format_token in Ht.
    destruct adv_format as [s|].
    - destruct (decide (s ∈ ADV_TOKENS)) as [Hs|_]; [congruence|].
      destruct (last ADV_TOKENS) as [t'|] eqn:Hlast; [|done].
      injection Ht as <-. by apply last_Some_elem_of.
    - destruct (last ADV_TOKENS) as [t'|] eqn:Hlast; [|done].
      injection Ht as <-. by apply last_Some_elem_of. }
  split; [done|]. by apply ensure_member.
Qed.

Lemma comprehension_Raise {A B} (f : A -> result B) (l : list A) (e : exn) :
  comprehension f l = Raise e ↔
  ∃ i x, l !! i = Some x ∧ f x = Raise e ∧
         ∀ j y, j < i → l !! j = Some y → ∃ b, f y = Ok b.
Proof.
  induction l as [|x l IH]; simpl.
  - split; [done|]. by intros (i & y & Hi & _).
  - destruct (f x) as [b|e0] eqn:Hfx; simpl.
    + destruct (comprehension f l) as [bs|e1] eqn:Hl; simpl.
      * split; [done|]. intros ([|i] & y & Hi & Hy & Hbefore).
        -- simpl in Hi. congruence.
        -- assert (Ok bs = Raise e) as Habs; [|done].
           apply IH. exists i, y. split; [done|]. split; [done|].
           intros j z Hj Hz. apply (Hbefore (S j) z); [lia|done].
      * split.
        -- intros [= ->]. destruct IH as [IH _].
           destruct (IH eq_refl) as (i & y & Hi & Hy & Hbefore).
           exists (S i), y. split; [done|]. split; [done|].
           intros [|j] z Hj Hz.
           ++ simpl in Hz. injection Hz as <-. by exists b.
           ++ apply (Hbefore j z); [lia|done].
        -- intros ([|i] & y & Hi & Hy & Hbefore).
           ++ simpl in Hi. congruence.
           ++ apply IH. exists i, y. split; [done|]. split; [done|].
              intros j z Hj Hz. apply (Hbefore (S j) z); [lia|done].
    + split.
      * intros [= ->]. exists 0, x. split; [done|]. split; [done|]. lia.
      * intros ([|i] & y & Hi & Hy & Hbefore).
        -- simpl in Hi. congruence.
        -- destruct (Hbefore 0 x) as [b Hb]; [lia|done|congruence].
Qed.

(** X2: [advisory_list] is all or nothing. On a list of entries it raises
    [e] exactly when the factory raises [e] on some entry and accepts every
    entry before it: the error is that of the first bad entry, and the
    objects built so far are lost. *)
Theorem advisory_list_first_failure self (entries : list json)
    (adv_format : option string) (tok : string) (e : exn) :
  ensure_adv_format_token adv_format = Ok tok →
  (advisory_list self (JArr entries) adv_format = Raise e ↔
   ∃ i adv, entries !! i = Some adv ∧ advisory_factory adv tok = Raise e ∧
            ∀ j adv', j < i → entries !! j = Some adv' →
                      ∃ obj, advisory_factory adv' tok = Ok obj).
Proof.
  intros Htok. unfold advisory_list. rewrite Htok. simpl.
  apply comprehension_Raise.
Qed.

(** *** One request *)

(** X5: [get_request] logs the path and then sends one request, whatever
    comes of it. A transport failure is raised as it is; an answer with a
    status from 400 to 599 raises an [HTTPError] that carries the response,
    even when its body is readable; any other answer, with any other status,
    gives its JSON body, or a [ValueError] when the body is not JSON. *)
Theorem get_request_outcome self path params st :
  let answer :=
    requests_get (st ++ [LogInfo ("Sending Get Request " +:+ path)])
                 (request_for self path params) in
  let st' := st ++ request_events self path params in
  (∀ name, answer = Failed name →
     get_request self path params st = (Raise (RequestException name), st')) ∧
  (∀ r, answer = Replied r → (400 <= status_code r < 600)%Z →
     get_request self path params st =
       (Raise (HTTPError [AStr (http_error_msg r)] (Some r)), st')) ∧
  (∀ r j, answer = Replied r → ¬ (400 <= status_code r < 600)%Z →
     body r = Some j →
     get_request self path params st = (Ok j, st')) ∧
  (∀ r, answer = Replied r → ¬ (400 <= status_code r < 600)%Z →
     body r = None →
     ∃ msg, get_request self path params st = (Raise (ValueError msg), st')).
Proof.
  intros answer st'. subst answer st'.
  unfold get_request, bind, emit, lift, request_for, request_events,
    raise_for_status, json_of.
  rewrite <- (assoc_L (++)). simpl. repeat split.
  - by intros name ->.
  - intros r -> Hko. by rewrite decide_True.
  - intros r j -> Hok Hbody. rewrite decide_False by done. by rewrite Hbody.
  - intros r -> Hok Hbody. rewrite decide_False by done. rewrite Hbody.
    by eexists.
Qed.

(** The part that the list handlers share: the request, the [advisories]
    item of the answer, and the mapping. *)
Lemma fetch_events self path params adv_format st :
  ∃ r, (advisories <~ get_request self path params ;;
        entries <~ lift (getitem advisories "advisories") ;;
        lift (advisory_list self entries adv_format)) st =
         (r, st ++ request_events self path params).
Proof.
  destruct (get_request_events self path params st) as [r Hr].
  unfold bind at 1. rewrite Hr. destruct r as [j|e]; [|by eexists].
  unfold bind, lift. destruct (getitem j "advisories"); by eexists.
Qed.

Lemma fetch_Ok self path params adv_format st (objs : list Advisory) st' :
  (advisories <~ get_request self path params ;;
   entries <~ lift (getitem advisories "advisories") ;;
   lift (advisory_list self entries adv_format)) st = (Ok objs, st') ↔
  ∃ response advisories,
    get_request self path params st = (Ok response, st') ∧
    getitem response "advisories" = Ok advisories ∧
    advisory_list self advisories adv_format = Ok objs.
Proof.
  unfold bind at 1.
  destruct (get_request self path params st) as [[response|e] st1].
  - unfold bind, lift.
    destruct (getitem response "advisories") as [advisories|e] eqn:Hget.
    + split.
      * intros [= Hlist <-]. by exists response, advisories.
      * intros (? & ? & [= <- <-] & ? & ?). congruence.
    + split; [done|]. intros (? & ? & [= <- <-] & ? & _). congruence.
  - split; [done|]. by intros (? & ? & [= <-] & _).
Qed.

Lemma fetch_getitem_error self path params adv_format st response st' e :
  get_request self path params st = (Ok response, st') →
  getitem response "advisories" = Raise e →
  (advisories <~ get_request self path params ;;
   entries <~ lift (getitem advisories "advisories") ;;
   lift (advisory_list self entries adv_format)) st = (Raise e, st').
Proof.
  intros Hreq Hget. unfold bind at 1. rewrite Hreq.
  unfold bind, lift. by rewrite Hget.
Qed.

Lemma bind_kwargs_filter (required : bool) (f : option filter) :
  bind_kwargs required {[ "a_filter" := f ]} = Ok f.
Proof.
  unfold bind_kwargs. rewrite decide_True by (by rewrite dom_singleton_L).
  by rewrite lookup_singleton_eq.
Qed.

Lemma bind_kwargs_optional (kw : kwargs) :
  dom kw ⊆ ({["a_filter"]} : gset string) →
  ∃ f, bind_kwargs false kw = Ok f.
Proof.
  intros Hdom. unfold bind_kwargs. rewrite decide_True by done.
  destruct (kw !! "a_filter"); by eexists.
Qed.

Lemma bind_kwargs_unexpected (required : bool) (kw : kwargs) (k : string)
    (v : option filter) :
  kw !! k = Some v → k ≠ "a_filter" →
  bind_kwargs required kw =
    Raise (TypeError "got an unexpected keyword argument").
Proof.
  intros Hk Hne. unfold bind_kwargs. rewrite decide_False; [done|].
  intros Hdom. apply Hne. apply (elem_of_singleton (C:=gset string)).
  apply Hdom. apply elem_of_dom. by eexists.
Qed.

(** *** The dispatcher *)

(** What [get_by] calls for each of its nine topics. *)
Lemma get_by_known self (topic : string) :
  topic ∈ ["all"; "cve"; "advisory"; "severity"; "year"; "latest";
           "product"; "ios_xe"; "ios"] →
  ∃ required method,
    (∀ format aspect kw,
       get_by self topic format aspect kw =
         bound required method format aspect kw) ∧
    method ∈ [get_by_all self; get_by_cve self; get_by_advisory self;
              get_by_severity self; get_by_year self; get_by_latest self;
              get_by_product self; get_by_ios_xe self; get_by_ios self].
Proof.
  intros Hin. repeat (apply elem_of_cons in Hin as [->|Hin]);
    [..|by apply elem_of_nil in Hin].
  - exists true, (get_by_all self). split; [done|set_solver].
  - exists false, (get_by_cve self). split; [done|set_solver].
  - exists false, (get_by_advisory self). split; [done|set_solver].
  - exists false, (get_by_severity self). split; [done|set_solver].
  - exists false, (get_by_year self). split; [done|set_solver].
  - exists false, (get_by_latest self). split; [done|set_solver].
  - exists false, (get_by_product self). split; [done|set_solver].
  - exists false, (get_by_ios_xe self). split; [done|set_solver].
  - exists false, (get_by_ios self). split; [done|set_solver].
Qed.

Lemma get_by_unknown self (topic : string) format aspect kw st :
  topic ∉ ["all"; "cve"; "advisory"; "severity"; "year"; "latest";
           "product"; "ios_xe"; "ios"] →
  ∃ e, get_by self topic format aspect kw st = (Raise e, st).
Proof.
  intros Hout.
  assert (trampoline self !! topic = None) as Hnone.
  { unfold trampoline, dict. simpl.
    repeat (apply not_elem_of_cons in Hout as [? Hout]).
    by rewrite !lookup_insert_ne, lookup_empty by done. }
  unfold get_by. destruct (_ !! topic); [done|]. by eexists.
Qed.

(** X6: the dispatch table. With the filter passed as the keyword
    [a_filter], [get_by] on each of the nine topics is the call of the
    handler of that topic with the format, the aspect and the filter; and
    without any keyword it is the call with the filter [None], for every
    topic but [all]. *)
Theorem get_by_routes self (topic : string)
    (handler : option string -> string -> option filter -> M (list Advisory))
    format aspect (f : option filter) st :
  (topic, handler) ∈
    [("all", get_by_all self); ("cve", get_by_cve self);
     ("advisory", get_by_advisory self); ("severity", get_by_severity self);
     ("year", get_by_year self); ("latest", get_by_latest self);
     ("product", get_by_product self); ("ios_xe", get_by_ios_xe self);
     ("ios", get_by_ios self)] →
  get_by self topic format aspect {[ "a_filter" := f ]} st =
    handler format aspect f st ∧
  (topic ≠ "all" →
   get_by self topic format aspect ∅ st = handler format aspect None st).
Proof.
  intros Hin. repeat (apply elem_of_cons in Hin as [[= -> ->]|Hin]);
    [..|by apply elem_of_nil in Hin].
  1: { split; [|done].
       change (bound true (get_by_all self) format aspect
                 {[ "a_filter" := f ]} st = get_by_all self format aspect f st).
       unfold bound, bind at 1, lift at 1. by rewrite bind_kwargs_filter. }
  all: split; [|intros _];
    lazymatch goal with
    | |- get_by _ _ _ _ ?kw _ = ?h _ _ ?x _ =>
        change (bound false h format aspect kw st = h format aspect x st)
    end;
    unfold bound, bind at 1, lift at 1;
    rewrite ?bind_kwargs_filter, ?bind_kwargs_empty; reflexivity.
Qed.

(** X7: a keyword argument other than [a_filter] makes [get_by] raise a
    [TypeError] on every supported topic, before anything is logged or
    sent. *)
Theorem get_by_unexpected_keyword self (topic : string) format aspect
    (kw : kwargs) (k : string) (v : option filter) st :
  topic ∈ ["all"; "cve"; "advisory"; "severity"; "year"; "latest";
           "product"; "ios_xe"; "ios"] →
  kw !! k = Some v → k ≠ "a_filter" →
  ∃ msg, get_by self topic format aspect kw st = (Raise (TypeError msg), st).
Proof.
  intros Hin Hk Hne.
  destruct (get_by_known self topic Hin) as (required & method & -> & _).
  unfold bound, bind, lift. rewrite (bind_kwargs_unexpected _ _ _ _ Hk Hne).
  by eexists.
Qed.

(** X8: the topic [all] needs its filter. Without the keyword [a_filter]
    the call raises a [TypeError], and with [a_filter=None] it raises an
    [AttributeError] when the path of the filter is read; in both cases
    nothing is logged or sent. *)
Theorem get_by_all_needs_filter self format (tok : string) aspect st :
  ensure_adv_format_token format = Ok tok →
  (∃ msg, get_by self "all" format aspect ∅ st =
            (Raise (TypeError msg), st)) ∧
  get_by self "all" format aspect {[ "a_filter" := None ]} st =
    (Raise (AttributeError "'NoneType' object has no attribute 'path'"), st).
Proof.
  intros Htok. split.
  - change (get_by self "all" format aspect ∅ st)
      with (bound true (get_by_all self) format aspect ∅ st).
    unfold bound, bind, lift. rewrite bind_kwargs_empty. by eexists.
  - change (get_by self "all" format aspect {[ "a_filter" := None ]} st)
      with (bound true (get_by_all self) format aspect
              {[ "a_filter" := None ]} st).
    unfold bound, bind at 1, lift at 1. rewrite bind_kwargs_filter.
    unfold get_by_all, bind, lift. by rewrite Htok.
Qed.

(** *** Paths, parameters and results of the list handlers *)

(** X9: for the topics [cve], [year] and [latest], [get_by] sends one
    request for the path [{token}/{topic}/{aspect}], where the token is the
    normalized format, without query parameters; a filter, if one is passed,
    plays no part. *)
Theorem get_by_simple_topic_request self (topic : string) format
    (tok : string) aspect (kw : kwargs) st :
  topic ∈ ["cve"; "year"; "latest"] →
  ensure_adv_format_token format = Ok tok →
  dom kw ⊆ ({["a_filter"]} : gset string) →
  ∃ r, get_by self topic format aspect kw st =
         (r, st ++ request_events self
                     (tok +:+ "/" +:+ topic +:+ "/" +:+ aspect) None).
Proof.
  intros Hin Htok Hkw. destruct (bind_kwargs_optional kw Hkw) as [f Hf].
  repeat (apply elem_of_cons in Hin as [->|Hin]);
    [..|by apply elem_of_nil in Hin].
  - change (get_by self "cve" format aspect kw)
      with (bound false (get_by_cve self) format aspect kw).
    unfold bound, bind at 1, lift at 1. rewrite Hf.
    unfold get_by_cve, bind at 1, lift at 1. rewrite Htok.
    exact (fetch_events self (tok +:+ "/cve/" +:+ aspect) None format st).
  - change (get_by self "year" format aspect kw)
      with (bound false (get_by_year self) format aspect kw).
    unfold bound, bind at 1, lift at 1. rewrite Hf.
    unfold get_by_year, bind at 1, lift at 1. rewrite Htok.
    exact (fetch_events self (tok +:+ "/year/" +:+ aspect) None format st).
  - change (get_by self "latest" format aspect kw)
      with (bound false (get_by_latest self) format aspect kw).
    unfold bound, bind at 1, lift at 1. rewrite Hf.
    unfold get_by_latest, bind at 1, lift at 1. rewrite Htok.
    exact (fetch_events self (tok +:+ "/latest/" +:+ aspect) None format st).
Qed.

Lemma get_by_simple_topic_unfold self (topic : string) format (tok : string)
    aspect (kw : kwargs) st :
  topic ∈ ["cve"; "year"; "latest"] →
  ensure_adv_format_token format = Ok tok →
  dom kw ⊆ ({["a_filter"]} : gset string) →
  get_by self topic format aspect kw st =
    (advisories <~ get_request self
                     (tok +:+ "/" +:+ topic +:+ "/" +:+ aspect) None ;;
     entries <~ lift (getitem advisories "advisories") ;;
     lift (advisory_list self entries format)) st.
Proof.
  intros Hin Htok Hkw. destruct (bind_kwargs_optional kw Hkw) as [f Hf].
  repeat (apply elem_of_cons in Hin as [->|Hin]);
    [..|by apply elem_of_nil in Hin].
  - change (get_by self "cve" format aspect kw)
      with (bound false (get_by_cve self) format aspect kw).
    unfold bound, bind at 1, lift at 1. rewrite Hf.
    unfold get_by_cve, bind at 1, lift at 1. by rewrite Htok.
  - change (get_by self "year" format aspect kw)
      with (bound false (get_by_year self) format aspect kw).
    unfold bound, bind at 1, lift at 1. rewrite Hf.
    unfold get_by_year, bind at 1, lift at 1. by rewrite Htok.
  - change (get_by self "latest" format aspect kw)
      with (bound false (get_by_latest self) format aspect kw).
    unfold bound, bind at 1, lift at 1. rewrite Hf.
    unfold get_by_latest, bind at 1, lift at 1. by rewrite Htok.
Qed.

(** X10: for the topics [cve], [year] and [latest], [get_by] returns a list
    exactly when the request returns a JSON object with an [advisories]
    item that can be iterated and the factory accepts each of its entries;
    the objects are built, in order, with the same token that is in the
    path of the request. *)
Theorem get_by_simple_topic_result self (topic : string) format
    (tok : string) aspect (kw : kwargs) st (objs : list Advisory) st' :
  topic ∈ ["cve"; "year"; "latest"] →
  ensure_adv_format_token format = Ok tok →
  dom kw ⊆ ({["a_filter"]} : gset string) →
  (get_by self topic format aspect kw st = (Ok objs, st') ↔
   ∃ response advisories entries,
     get_request self (tok +:+ "/" +:+ topic +:+ "/" +:+ aspect) None st =
       (Ok response, st') ∧
     getitem response "advisories" = Ok advisories ∧
     iterate advisories = Ok entries ∧
     Forall2 (fun adv obj => advisory_factory adv tok = Ok obj) entries objs).
Proof.
  intros Hin Htok Hkw.
  rewrite (get_by_simple_topic_unfold _ _ _ _ _ _ _ Hin Htok Hkw).
  rewrite fetch_Ok. split.
  - intros (response & advisories & Hreq & Hget & Hlist).
    apply advisory_list_Ok in Hlist as (tok' & entries & Htok' & Hit & HF).
    assert (tok' = tok) as -> by congruence.
    by exists response, advisories, entries.
  - intros (response & advisories & entries & Hreq & Hget & Hit & HF).
    exists response, advisories. split; [done|]. split; [done|].
    apply advisory_list_Ok. by exists tok, entries.
Qed.

Lemma getitem_missing (fields : list (string * json)) (key : string) :
  key ∉ fields.*1 → getitem (JObj fields) key = Raise (KeyError key).
Proof.
  intros Hout. unfold getitem.
  destruct (list_find _ fields) as [[i kv]|] eqn:Hfind; [|done].
  apply list_find_Some in Hfind as (Hi & Hkey & _).
  exfalso. apply Hout. rewrite <- Hkey.
  apply list_elem_of_fmap. exists kv. split; [done|].
  by eapply list_elem_of_lookup_2.
Qed.

(** X11: for the topics [cve], [year] and [latest], an answer that is a JSON
    object without an [advisories] item makes [get_by] raise
    [KeyError('advisories')], after the request was sent, and an answer that
    is a JSON list makes it raise a [TypeError]. *)
Theorem get_by_simple_topic_bad_answer self (topic : string) format
    (tok : string) aspect (kw : kwargs) st response st' :
  topic ∈ ["cve"; "year"; "latest"] →
  ensure_adv_format_token format = Ok tok →
  dom kw ⊆ ({["a_filter"]} : gset string) →
  get_request self (tok +:+ "/" +:+ topic +:+ "/" +:+ aspect) None st =
    (Ok response, st') →
  (∀ fields, response = JObj fields → "advisories" ∉ fields.*1 →
     get_by self topic format aspect kw st =
       (Raise (KeyError "advisories"), st')) ∧
  (∀ items, response = JArr items →
     ∃ msg, get_by self topic format aspect kw st =
              (Raise (TypeError msg), st')).
Proof.
  intros Hin Htok Hkw Hreq.
  rewrite (get_by_simple_topic_unfold _ _ _ _ _ _ _ Hin Htok Hkw). split.
  - intros fields -> Hout.
    by apply (fetch_getitem_error _ _ _ _ _ _ _ _ Hreq), getitem_missing.
  - intros items ->. eexists.
    by apply (fetch_getitem_error _ _ _ _ _ _ _ _ Hreq).
Qed.

(** X12: [get_by_product] asks for [{token}/product] and passes the product
    name as the query parameter [product], not in the path; its filter
    plays no part. *)
Theorem get_by_product_request self format (tok : string) product_name
    a_filter st :
  ensure_adv_format_token format = Ok tok →
  ∃ r, get_by_product self format product_name a_filter st =
         (r, st ++ request_events self (tok +:+ "/product")
                     (Some {[ "product" := product_name ]})).
Proof.
  intros Htok. unfold get_by_product, bind at 1, lift at 1. rewrite Htok.
  rewrite dict_single.
  exact (fetch_events self (tok +:+ "/product") _ format st).
Qed.

Lemma filtered_requests_aux self format (tok : string) aspect (f : filter) st :
  ensure_adv_format_token format = Ok tok →
  (∃ r, get_by_all self format aspect (Some f) st =
          (r, st ++ request_events self
                      (tok +:+ "/" +:+ aspect +:+ "/" +:+ path f)
                      (params f))) ∧
  (∃ r, get_by_severity self format aspect (Some f) st =
          (r, st ++ request_events self
                      (tok +:+ "/severity/" +:+ aspect +:+ "/" +:+ path f)
                      (params f))).
Proof.
  intros Htok. split.
  - unfold get_by_all, bind at 1, lift at 1. rewrite Htok.
    exact (fetch_events self _ (params f) format st).
  - unfold get_by_severity, bind at 1, lift at 1. rewrite Htok.
    exact (fetch_events self _ (params f) format st).
Qed.

(** X13: with a filter, [get_by_all] asks for [{token}/{all}/{path}] and
    [get_by_severity] for [{token}/severity/{severity}/{path}], where [path]
    is the path of the filter, and both pass the parameters of the filter
    as the query. *)
Theorem filtered_requests self format (tok : string) aspect (f : filter) st :
  ensure_adv_format_token format = Ok tok →
  (∃ r, get_by_all self format aspect (Some f) st =
          (r, st ++ request_events self
                      (tok +:+ "/" +:+ aspect +:+ "/" +:+ path f)
                      (params f))) ∧
  (∃ r, get_by_severity self format aspect (Some f) st =
          (r, st ++ request_events self
                      (tok +:+ "/severity/" +:+ aspect +:+ "/" +:+ path f)
                      (params f))).
Proof. apply filtered_requests_aux. Qed.

(** *** The platform handlers and other errors *)

(** X14: [get_by_ios] and [get_by_ios_xe] catch [HTTPError] only. Any other
    error of the request, such as a transport failure or a body that is not
    JSON, comes out as it is; and so does the [KeyError] for an answer
    without an [advisories] item. *)
Theorem ios_passes_other_errors (xe : bool) self adv_format version a_filter
    st st' :
  (∀ e, get_request self (ios_path xe) (Some {[ "version" := version ]}) st =
          (Raise e, st') →
        (∀ args response, e ≠ HTTPError args response) →
        ios_handler xe self adv_format version a_filter st = (Raise e, st')) ∧
  (∀ fields,
     get_request self (ios_path xe) (Some {[ "version" := version ]}) st =
       (Ok (JObj fields), st') →
     "advisories" ∉ fields.*1 →
     ios_handler xe self adv_format version a_filter st =
       (Raise (KeyError "advisories"), st')).
Proof.
  rewrite <- dict_single. split.
  - intros e Hreq Hother.
    destruct xe; simpl in Hreq |- *;
      unfold get_by_ios_xe, get_by_ios, try_except, bind at 1;
      rewrite Hreq;
      (destruct e; try done; by destruct (Hother args response)).
  - intros fields Hreq Hout.
    destruct xe; simpl in Hreq |- *;
      unfold get_by_ios_xe, get_by_ios, try_except;
      by rewrite (fetch_getitem_error _ _ _ _ _ _ _ _ Hreq
                    (getitem_missing _ _ Hout)).
Qed.

(** *** At most one request *)

(** What a handler does to the events: nothing, and then it raises, or one
    logged request. *)
Lemma handler_events self
    (method : option string -> string -> option filter -> M (list Advisory)) :
  method ∈ [get_by_all self; get_by_cve self; get_by_advisory self;
            get_by_severity self; get_by_year self; get_by_latest self;
            get_by_product self; get_by_ios_xe self; get_by_ios self] →
  ∀ format aspect f st,
    ∃ r st', method format aspect f st = (r, st') ∧
             ((st' = st ∧ ∃ e, r = Raise e) ∨
              ∃ path params, st' = st ++ request_events self path params).
Proof.
  intros Hin format aspect f st.
  repeat (apply elem_of_cons in Hin as [->|Hin]);
    [..|by apply elem_of_nil in Hin].
  - unfold get_by_all, bind at 1, lift at 1.
    destruct (ensure_adv_format_token format) as [tok|e];
      [|eexists _, _; split; [reflexivity|left; eauto]].
    destruct f as [f|]; [|eexists _, _; split; [reflexivity|left; eauto]].
    destruct (fetch_events self (tok +:+ "/" +:+ aspect +:+ "/" +:+ path f)
                (params f) format st) as [r Hr].
    eexists _, _. split; [exact Hr|right; eauto].
  - unfold get_by_cve, bind at 1, lift at 1.
    destruct (ensure_adv_format_token format) as [tok|e];
      [|eexists _, _; split; [reflexivity|left; eauto]].
    destruct (fetch_events self (tok +:+ "/cve/" +:+ aspect) None format st)
      as [r Hr].
    eexists _, _. split; [exact Hr|right; eauto].
  - unfold get_by_advisory, bind at 1, lift at 1.
    destruct (ensure_adv_format_token format) as [tok|e];
      [|eexists _, _; split; [reflexivity|left; eauto]].
    destruct (get_request_events self (tok +:+ "/advisory/" +:+ aspect)
                None st) as [r Hr].
    unfold bind at 1. rewrite Hr.
    destruct r as [j|e]; [|eexists _, _; split; [reflexivity|right; eauto]].
    unfold bind, lift. destruct (getitem _ _);
      eexists _, _; (split; [reflexivity|right; eauto]).
  - unfold get_by_severity, bind at 1, lift at 1.
    destruct (ensure_adv_format_token format) as [tok|e];
      [|eexists _, _; split; [reflexivity|left; eauto]].
    destruct f as [f|]; [|eexists _, _; split; [reflexivity|left; eauto]].
    destruct (fetch_events self
                (tok +:+ "/severity/" +:+ aspect +:+ "/" +:+ path f)
                (params f) format st) as [r Hr].
    eexists _, _. split; [exact Hr|right; eauto].
  - unfold get_by_year, bind at 1, lift at 1.
    destruct (ensure_adv_format_token format) as [tok|e];
      [|eexists _, _; split; [reflexivity|left; eauto]].
    destruct (fetch_events self (tok +:+ "/year/" +:+ aspect) None format st)
      as [r Hr].
    eexists _, _. split; [exact Hr|right; eauto].
  - unfold get_by_latest, bind at 1, lift at 1.
    destruct (ensure_adv_format_token format) as [tok|e];
      [|eexists _, _; split; [reflexivity|left; eauto]].
    destruct (fetch_events self (tok +:+ "/latest/" +:+ aspect) None format
                st) as [r Hr].
    eexists _, _. split; [exact Hr|right; eauto].
  - unfold get_by_product, bind at 1, lift at 1.
    destruct (ensure_adv_format_token format) as [tok|e];
      [|eexists _, _; split; [reflexivity|left; eauto]].
    destruct (fetch_events self (tok +:+ "/product")
                (Some (dict [("product", aspect)])) format st) as [r Hr].
    eexists _, _. split; [exact Hr|right; eauto].
  - destruct (ios_handler_events true self format aspect f st) as [r Hr].
    eexists _, _. split; [exact Hr|right; eauto].
  - destruct (ios_handler_events false self format aspect f st) as [r Hr].
    eexists _, _. split; [exact Hr|right; eauto].
Qed.

(** X15: a call of [get_by], whatever its arguments, either raises before
    anything is logged or sent, or logs and sends exactly one request; it
    never sends a second one, and it returns a value only after a
    request. *)
Theorem get_by_at_most_one_request self (topic : string) format aspect
    (kw : kwargs) st r st' :
  get_by self topic format aspect kw st = (r, st') →
  (st' = st ∧ ∃ e, r = Raise e) ∨
  ∃ path params, st' = st ++ request_events self path params.
Proof.
  destruct (decide (topic ∈ ["all"; "cve"; "advisory"; "severity"; "year";
                             "latest"; "product"; "ios_xe"; "ios"]))
    as [Hin|Hout].
  - destruct (get_by_known self topic Hin) as (required & method & -> & Hm).
    unfold bound, bind at 1, lift at 1.
    destruct (bind_kwargs required kw) as [f|e].
    + destruct (handler_events self method Hm format aspect f st)
        as (r0 & st0 & -> & Hcases).
      by intros [= <- <-].
    + intros [= <- <-]. left. eauto.
  - destruct (get_by_unknown self topic format aspect kw st Hout) as [e ->].
    intros [= <- <-]. left. eauto.
Qed.

(** *** Temporal filters in a query *)

(** X16: a query by publication date. With [FirstPublished(start, end)] as
    its filter, [get_by] on the topic [all] asks for
    [{token}/{all}/firstpublished] and on the topic [severity] for
    [{token}/severity/{severity}/firstpublished], with [startDate] and
    [endDate] as the query; with [LastUpdated] the last part of the path is
    [lastpublished]. *)
Theorem get_by_temporal_filter self format (tok : string) aspect
    (start_date end_date : string) st :
  ensure_adv_format_token format = Ok tok →
  let dates := Some {[ "startDate" := start_date; "endDate" := end_date ]} in
  let first := Some (FirstPublished [start_date; end_date]) in
  let last := Some (LastUpdated [start_date; end_date]) in
  (∃ r, get_by self "all" format aspect {[ "a_filter" := first ]} st =
          (r, st ++ request_events self
                      (tok +:+ "/" +:+ aspect +:+ "/firstpublished") dates)) ∧
  (∃ r, get_by self "all" format aspect {[ "a_filter" := last ]} st =
          (r, st ++ request_events self
                      (tok +:+ "/" +:+ aspect +:+ "/lastpublished") dates)) ∧
  (∃ r, get_by self "severity" format aspect {[ "a_filter" := first ]} st =
          (r, st ++ request_events self
                      (tok +:+ "/severity/" +:+ aspect +:+ "/firstpublished")
                      dates)) ∧
  (∃ r, get_by self "severity" format aspect {[ "a_filter" := last ]} st =
          (r, st ++ request_events self
                      (tok +:+ "/severity/" +:+ aspect +:+ "/lastpublished")
                      dates)).
Proof.
  intros Htok dates first last.
  assert (∀ f, get_by self "all" format aspect {[ "a_filter" := Some f ]} st =
               get_by_all self format aspect (Some f) st) as Hall.
  { intros f.
    change (get_by self "all" format aspect {[ "a_filter" := Some f ]} st)
      with (bound true (get_by_all self) format aspect
              {[ "a_filter" := Some f ]} st).
    unfold bound, bind at 1, lift at 1. by rewrite bind_kwargs_filter. }
  assert (∀ f, get_by self "severity" format aspect
                 {[ "a_filter" := Some f ]} st =
               get_by_severity self format aspect (Some f) st) as Hsev.
  { intros f.
    change (get_by self "severity" format aspect {[ "a_filter" := Some f ]} st)
      with (bound false (get_by_severity self) format aspect
              {[ "a_filter" := Some f ]} st).
    unfold bound, bind at 1, lift at 1. by rewrite bind_kwargs_filter. }
  subst first last. rewrite !Hall, !Hsev.
  destruct (filtered_requests_aux self format tok aspect
              (FirstPublished [start_date; end_date]) st Htok) as [H1 H2].
  destruct (filtered_requests_aux self format tok aspect
              (LastUpdated [start_date; end_date]) st Htok) as [H3 H4].
  repeat split; assumption.
Qed.
End Client.

(** ** Filters *)

(** C6: [FirstPublished("2020-01-01", "2020-02-01")] is the filter with path
    [firstpublished] whose parameters map [startDate] to [2020-01-01] and
    [endDate] to [2020-02-01]. *)
Theorem FirstPublished_two_dates :
  FirstPublished ["2020-01-01"; "2020-02-01"] =
    {| path := "firstpublished";
       params := Some {[ "startDate" := "2020-01-01";
                         "endDate" := "2020-02-01" ]} |}.
Proof. reflexivity. Qed.

Lemma TemporalFilter_take (p : string) (args : list string) :
  TemporalFilter p args = TemporalFilter p (take 2 args).
Proof. by destruct args as [|a [|b rest]]. Qed.

(** C10: a temporal filter accepts any number of dates and is always built.
    No date gives empty parameters, one date gives [startDate] only, and of
    two or more dates the first two become [startDate] and [endDate] while
    the others are dropped. [FirstPublished] and [LastUpdated] do the same
    under their own paths. *)
Theorem TemporalFilter_any_arity (p a b : string) (rest : list string) :
  TemporalFilter p [] = {| path := p; params := Some ∅ |} ∧
  TemporalFilter p [a] =
    {| path := p; params := Some {[ "startDate" := a ]} |} ∧
  TemporalFilter p (a :: b :: rest) =
    {| path := p; params := Some {[ "startDate" := a; "endDate" := b ]} |} ∧
  (∀ args,
     FirstPublished args = TemporalFilter "firstpublished" (take 2 args)) ∧
  (∀ args, LastUpdated args = TemporalFilter "lastpublished" (take 2 args)).
Proof.
  repeat split; try reflexivity.
  - intros args. apply TemporalFilter_take.
  - intros args. apply TemporalFilter_take.
Qed.


(** X17: the parameters of a temporal filter, for any number of dates: the
    first date is found under [startDate], the second under [endDate], and
    there is no other key. *)
Theorem TemporalFilter_params_lookup (p : string) (args : list string) :
  path (TemporalFilter p args) = p ∧
  ∃ m, params (TemporalFilter p args) = Some m ∧
       m !! "startDate" = args !! 0 ∧
       m !! "endDate" = args !! 1 ∧
       ∀ k, k ≠ "startDate" → k ≠ "endDate" → m !! k = None.
Proof.
  split; [done|]. eexists. split; [reflexivity|].
  destruct args as [|a [|b rest]]; (split; [done|]; split; [done|]);
    intros k H1 H2; unfold dict; simpl;
    by rewrite ?lookup_insert_ne, lookup_empty by done.
Qed.

(** ** Construction *)

Section ConstructionProperties.

Context (REQUEST_TOKEN_URL : string)
        (get_oauth_token : string -> string -> string -> result string)
        (rest_with_auth_headers : string -> string -> gmap string string).


(** X4: an empty [auth_url] is false in the test of the constructor, so it
    does what no [auth_url] does, which is also what passing the configured
    URL does; a refused token is raised again and no client is built. *)
Theorem OpenVulnQueryClient_init_falsy_url (client_id client_secret : string)
    (user_agent : option string) :
  OpenVulnQueryClient_init REQUEST_TOKEN_URL get_oauth_token
      rest_with_auth_headers client_id client_secret (Some "") user_agent =
    OpenVulnQueryClient_init REQUEST_TOKEN_URL get_oauth_token
      rest_with_auth_headers client_id client_secret None user_agent ∧
  OpenVulnQueryClient_init REQUEST_TOKEN_URL get_oauth_token
      rest_with_auth_headers client_id client_secret (Some REQUEST_TOKEN_URL)
      user_agent =
    OpenVulnQueryClient_init REQUEST_TOKEN_URL get_oauth_token
      rest_with_auth_headers client_id client_secret None user_agent ∧
  (∀ e,
     get_oauth_token client_id client_secret REQUEST_TOKEN_URL = Raise e →
        OpenVulnQueryClient_init REQUEST_TOKEN_URL get_oauth_token
            rest_with_auth_headers client_id client_secret None user_agent =
          Raise e).
Proof.
  unfold OpenVulnQueryClient_init. cbv zeta. split; [done|]. split.
  - by destruct (decide (REQUEST_TOKEN_URL = "")) as [->|].
  - by intros e ->.
Qed.

End ConstructionProperties.

(** ** The client in the concrete setting *)

Module SampleRuns.
Import Sample.

Abbreviation run_get_by :=
  (get_by ADV_TOKENS API_URL Advisory advisory_factory requests_get
          http_error_msg client).

Abbreviation ios_request p version :=
  (request_for API_URL client p (Some (dict [("version", version)]))).

Example ensure_known :
  ensure_adv_format_token ADV_TOKENS (Some "oval") = Ok "oval".
Proof. reflexivity. Qed.

Example ensure_misspelled :
  ensure_adv_format_token ADV_TOKENS (Some "ovla") = Ok "ios".
Proof. reflexivity. Qed.

Example ensure_None : ensure_adv_format_token ADV_TOKENS None = Ok "ios".
Proof. reflexivity. Qed.

(** Without tokens the fallback itself fails. *)
Example ensure_no_tokens :
  ensure_adv_format_token [] (Some "cvrf") =
    Raise (IndexError "tuple index out of range").
Proof. reflexivity. Qed.

(** One object per entry, in the order of the entries, with the token the
    format normalizes to. *)
Example advisory_list_two_entries :
  advisory_list ADV_TOKENS Advisory advisory_factory client
    (JArr [entry "sa-2"; entry "sa-1"]) (Some "xml") =
    Ok [(entry "sa-2", "ios"); (entry "sa-1", "ios")].
Proof. reflexivity. Qed.

(** An advisory answered as a list is still one entry for the factory. *)
Example get_by_advisory_list_response :
  run_get_by "advisory" (Some "cvrf") "sa-1" ∅ [] =
    (Ok [(JArr [entry "sa-1"], "cvrf")],
     [LogInfo "Sending Get Request cvrf/advisory/sa-1";
      HttpGet (request_for API_URL client "cvrf/advisory/sa-1" None)]).
Proof. vm_compute. reflexivity. Qed.

(** The format [cvrf] is passed, the objects are built with [ios]. *)
Example get_by_ios_xe_forces_format :
  run_get_by "ios_xe" (Some "cvrf") "3.16.1S" ∅ [] =
    (Ok [(entry "sa-1", "ios"); (entry "sa-2", "ios")],
     [LogInfo "Sending Get Request iosxe";
      HttpGet (ios_request "iosxe" "3.16.1S")]).
Proof. vm_compute. reflexivity. Qed.

(** The 404 of the server comes out of [get_by_ios] as a new error. *)
Example get_by_ios_not_found :
  run_get_by "ios" None "15.1" ∅ [] =
    (Raise (HTTPError [AInt 404; AStr "Not Found"] None),
     [LogInfo "Sending Get Request ios"; HttpGet (ios_request "ios" "15.1")]).
Proof. vm_compute. reflexivity. Qed.

(** A transport failure is not an [HTTPError] and passes through. *)
Example get_by_cve_unreachable :
  run_get_by "cve" (Some "cvrf") "CVE-2015-1234" ∅ [] =
    (Raise (RequestException "ConnectionError"),
     [LogInfo "Sending Get Request cvrf/cve/CVE-2015-1234";
      HttpGet (request_for API_URL client "cvrf/cve/CVE-2015-1234" None)]).
Proof. vm_compute. reflexivity. Qed.

(** With an explicit empty filter the severity request is sent, to the
    path that ends in the empty filter path. *)
Example get_by_severity_empty_filter :
  run_get_by "severity" (Some "oval") "high"
             {[ "a_filter" := Some (Filter None None) ]} [] =
    (Raise (RequestException "ConnectionError"),
     [LogInfo "Sending Get Request oval/severity/high/";
      HttpGet (request_for API_URL client "oval/severity/high/" None)]).
Proof. vm_compute. reflexivity. Qed.

(** Without a filter it is not. *)
Example get_by_severity_no_filter :
  run_get_by "severity" (Some "oval") "high" ∅ [] =
    (Raise (AttributeError "'NoneType' object has no attribute 'params'"),
     []).
Proof. vm_compute. reflexivity. Qed.

End SampleRuns.

(** ** Instances of the conditional theorems *)

Lemma ensure_adv_format_token_total_witness :
  Sample.ADV_TOKENS ≠ [] ∧
  ∃ t, last Sample.ADV_TOKENS = Some t ∧
       ("ovla" ∈ Sample.ADV_TOKENS →
        ensure_adv_format_token Sample.ADV_TOKENS (Some "ovla") = Ok "ovla") ∧
       ("ovla" ∉ Sample.ADV_TOKENS →
        ensure_adv_format_token Sample.ADV_TOKENS (Some "ovla") = Ok t) ∧
       ensure_adv_format_token Sample.ADV_TOKENS None = Ok t ∧
       (∃ r, ensure_adv_format_token Sample.ADV_TOKENS (Some "ovla") = Ok r).
Proof.
  assert (Sample.ADV_TOKENS ≠ []) as Hne by discriminate.
  split; [exact Hne|].
  exact (ensure_adv_format_token_total Sample.ADV_TOKENS "ovla" Hne).
Defined.

Lemma get_by_cve_request_witness :
  "cvrf" ∈ Sample.ADV_TOKENS ∧
  ∃ r, SampleRuns.run_get_by "cve" (Some "cvrf") "CVE-2015-1234" ∅ [] =
         (r, [] ++ [LogInfo "Sending Get Request cvrf/cve/CVE-2015-1234";
                    HttpGet {| url := Sample.API_URL +:+
                                        "/cvrf/cve/CVE-2015-1234";
                               headers := client_headers Sample.client;
                               query := None |}]).
Proof.
  assert ("cvrf" ∈ Sample.ADV_TOKENS) as Hin by compute_done.
  split; [exact Hin|].
  exact (get_by_cve_request Sample.ADV_TOKENS Sample.API_URL
           Sample.Advisory Sample.advisory_factory Sample.requests_get
           Sample.http_error_msg
           Sample.client [] Hin).
Defined.

Lemma get_by_unknown_topic_witness :
  ("bogus" ∉ ["all"; "cve"; "advisory"; "severity"; "year"; "latest";
              "product"; "ios_xe"; "ios"]) ∧
  (trampoline Sample.ADV_TOKENS Sample.API_URL Sample.Advisory
              Sample.advisory_factory Sample.requests_get
              Sample.http_error_msg Sample.client) !! "bogus" = None ∧
  SampleRuns.run_get_by "bogus" (Some "cvrf") "x" ∅ [] =
    (Raise (KeyError ("REST API 'topic' (" +:+ "bogus" +:+
                      ") not (yet) supported.")), []).
Proof.
  assert ("bogus" ∉ ["all"; "cve"; "advisory"; "severity"; "year"; "latest";
                     "product"; "ios_xe"; "ios"]) as Hout
    by compute_done.
  split; [exact Hout|].
  exact (get_by_unknown_topic Sample.ADV_TOKENS Sample.API_URL
           Sample.Advisory Sample.advisory_factory Sample.requests_get
           Sample.http_error_msg
           Sample.client "bogus" (Some "cvrf") "x" ∅ [] Hout).
Defined.

Lemma ios_rewraps_http_error_witness :
  let r := {| status_code := 404; text := "Not Found"; body := None |} in
  let st' := [LogInfo "Sending Get Request ios";
              HttpGet (SampleRuns.ios_request "ios" "15.1")] in
  get_request Sample.API_URL Sample.requests_get Sample.http_error_msg
    Sample.client (ios_path false) (Some (dict [("version", "15.1")])) [] =
    (Raise (HTTPError [AStr "Client Error: Not Found"] (Some r)), st') ∧
  ∃ r', Some r = Some r' ∧
        ios_handler Sample.ADV_TOKENS Sample.API_URL Sample.Advisory
          Sample.advisory_factory Sample.requests_get Sample.http_error_msg
          false Sample.client (Some "cvrf") "15.1" None [] =
          (Raise (HTTPError [AInt (status_code r'); AStr (text r')] None),
           st') ∧
        HTTPError [AInt (status_code r'); AStr (text r')] None ≠
          HTTPError [AStr "Client Error: Not Found"] (Some r).
Proof.
  intros r st'.
  assert (get_request Sample.API_URL Sample.requests_get Sample.http_error_msg
            Sample.client (ios_path false) (Some (dict [("version", "15.1")]))
            [] =
          (Raise (HTTPError [AStr "Client Error: Not Found"] (Some r)), st'))
    as Hreq by (vm_compute; reflexivity).
  split; [exact Hreq|].
  exact (ios_rewraps_http_error Sample.ADV_TOKENS Sample.API_URL
           Sample.Advisory Sample.advisory_factory Sample.requests_get
           Sample.http_error_msg
           false Sample.client (Some "cvrf") "15.1" None [] _ _ _ Hreq).
Defined.

(** ** Instances of the further conditional theorems *)

Module FurtherRuns.
Import Sample.

(** A definition of the client applied to the concrete setting, with the
    given network. *)
Abbreviation on net h :=
  (h ADV_TOKENS API_URL Advisory advisory_factory net http_error_msg).

(** A query by year with a misspelled format: the fallback token is in the
    path and on the objects. *)
Example get_by_year_fallback :
  on requests_get_one get_by client "year" (Some "cvfr") "2016" ∅ [] =
    (Ok [(entry "sa-1", "ios")],
     request_events API_URL client "ios/year/2016" None).
Proof. vm_compute. reflexivity. Qed.

(** The product name travels in the query. *)
Example get_by_product_query :
  on requests_get_one get_by client "product" (Some "oval") "router" ∅ [] =
    (Ok [(entry "sa-1", "oval")],
     request_events API_URL client "oval/product"
       (Some (dict [("product", "router")]))).
Proof. vm_compute. reflexivity. Qed.

(** A transport failure passes through [get_by_ios]. *)
Example get_by_ios_unreachable :
  on requests_get_down get_by client "ios" None "15.1" ∅ [] =
    (Raise (RequestException "ConnectionError"),
     request_events API_URL client "ios" (Some (dict [("version", "15.1")]))).
Proof. vm_compute. reflexivity. Qed.

(** An answer without advisories is a [KeyError], also for [get_by_ios_xe]. *)
Example get_by_ios_xe_bare :
  on requests_get_bare get_by client "ios_xe" None "3.1" ∅ [] =
    (Raise (KeyError "advisories"),
     request_events API_URL client "iosxe" (Some (dict [("version", "3.1")]))).
Proof. vm_compute. reflexivity. Qed.

End FurtherRuns.

Lemma ensure_adv_format_token_member_witness :
  ensure_adv_format_token Sample.ADV_TOKENS (Some "xml") = Ok "ios" ∧
  "ios" ∈ Sample.ADV_TOKENS ∧
  ensure_adv_format_token Sample.ADV_TOKENS (Some "ios") = Ok "ios".
Proof.
  assert (ensure_adv_format_token Sample.ADV_TOKENS (Some "xml") = Ok "ios")
    as Htok by reflexivity.
  split; [exact Htok|].
  exact (ensure_adv_format_token_member Sample.ADV_TOKENS (Some "xml") "ios"
           Htok).
Defined.

Lemma advisory_list_first_failure_witness :
  let entries := [Sample.entry "sa-1"; JStr "oops"; JNull] in
  let e := OtherError "not an advisory" in
  ensure_adv_format_token Sample.ADV_TOKENS (Some "cvrf") = Ok "cvrf" ∧
  (advisory_list Sample.ADV_TOKENS Sample.Advisory Sample.strict_factory
     Sample.client (JArr entries) (Some "cvrf") = Raise e ↔
   ∃ i adv, entries !! i = Some adv ∧
            Sample.strict_factory adv "cvrf" = Raise e ∧
            ∀ j adv', j < i → entries !! j = Some adv' →
                      ∃ obj, Sample.strict_factory adv' "cvrf" = Ok obj).
Proof.
  intros entries e.
  assert (ensure_adv_format_token Sample.ADV_TOKENS (Some "cvrf") = Ok "cvrf")
    as Htok by reflexivity.
  split; [exact Htok|].
  exact (advisory_list_first_failure Sample.ADV_TOKENS Sample.Advisory
           Sample.strict_factory Sample.client entries (Some "cvrf") "cvrf" e
           Htok).
Defined.


Lemma get_by_routes_witness :
  let handlers (self : OpenVulnQueryClient) :=
    [("all", FurtherRuns.on Sample.requests_get get_by_all self);
     ("cve", FurtherRuns.on Sample.requests_get get_by_cve self);
     ("advisory", FurtherRuns.on Sample.requests_get get_by_advisory self);
     ("severity", FurtherRuns.on Sample.requests_get get_by_severity self);
     ("year", FurtherRuns.on Sample.requests_get get_by_year self);
     ("latest", FurtherRuns.on Sample.requests_get get_by_latest self);
     ("product", FurtherRuns.on Sample.requests_get get_by_product self);
     ("ios_xe", FurtherRuns.on Sample.requests_get get_by_ios_xe self);
     ("ios", FurtherRuns.on Sample.requests_get get_by_ios self)] in
  let handler := FurtherRuns.on Sample.requests_get get_by_year Sample.client in
  ("year", handler) ∈ handlers Sample.client ∧
  FurtherRuns.on Sample.requests_get get_by Sample.client "year"
      (Some "cvrf") "2016" {[ "a_filter" := None ]} [] =
    handler (Some "cvrf") "2016" None [] ∧
  ("year" ≠ "all" →
   FurtherRuns.on Sample.requests_get get_by Sample.client "year"
       (Some "cvrf") "2016" ∅ [] =
     handler (Some "cvrf") "2016" None []).
Proof.
  intros handlers handler.
  assert (("year", handler) ∈ handlers Sample.client) as Hin
    by (do 4 apply list_elem_of_further; apply list_elem_of_here).
  split; [exact Hin|].
  exact (get_by_routes Sample.ADV_TOKENS Sample.API_URL Sample.Advisory
           Sample.advisory_factory Sample.requests_get Sample.http_error_msg
           Sample.client "year" handler (Some "cvrf") "2016" None [] Hin).
Defined.

Lemma get_by_unexpected_keyword_witness :
  let kw : gmap string (option filter) := {[ "verbose" := None ]} in
  "cve" ∈ ["all"; "cve"; "advisory"; "severity"; "year"; "latest";
           "product"; "ios_xe"; "ios"] ∧
  kw !! "verbose" = Some None ∧
  "verbose" ≠ "a_filter" ∧
  ∃ msg, FurtherRuns.on Sample.requests_get get_by Sample.client "cve"
           (Some "cvrf") "CVE-2015-1234" kw [] = (Raise (TypeError msg), []).
Proof.
  intros kw.
  assert ("cve" ∈ ["all"; "cve"; "advisory"; "severity"; "year"; "latest";
                   "product"; "ios_xe"; "ios"]) as Hin by compute_done.
  assert (kw !! "verbose" = Some None) as Hk by reflexivity.
  assert ("verbose" ≠ "a_filter") as Hne by discriminate.
  split; [exact Hin|]. split; [exact Hk|]. split; [exact Hne|].
  exact (get_by_unexpected_keyword Sample.ADV_TOKENS Sample.API_URL
           Sample.Advisory Sample.advisory_factory Sample.requests_get
           Sample.http_error_msg Sample.client "cve" (Some "cvrf")
           "CVE-2015-1234" kw "verbose" None [] Hin Hk Hne).
Defined.

Lemma get_by_all_needs_filter_witness :
  ensure_adv_format_token Sample.ADV_TOKENS (Some "cvrf") = Ok "cvrf" ∧
  (∃ msg, FurtherRuns.on Sample.requests_get get_by Sample.client "all"
            (Some "cvrf") "all" ∅ [] = (Raise (TypeError msg), [])) ∧
  FurtherRuns.on Sample.requests_get get_by Sample.client "all"
      (Some "cvrf") "all" {[ "a_filter" := None ]} [] =
    (Raise (AttributeError "'NoneType' object has no attribute 'path'"), []).
Proof.
  assert (ensure_adv_format_token Sample.ADV_TOKENS (Some "cvrf") = Ok "cvrf")
    as Htok by reflexivity.
  split; [exact Htok|].
  exact (get_by_all_needs_filter Sample.ADV_TOKENS Sample.API_URL
           Sample.Advisory Sample.advisory_factory Sample.requests_get
           Sample.http_error_msg Sample.client (Some "cvrf") "cvrf" "all" []
           Htok).
Defined.

Lemma get_by_simple_topic_request_witness :
  "year" ∈ ["cve"; "year"; "latest"] ∧
  ensure_adv_format_token Sample.ADV_TOKENS (Some "cvfr") = Ok "ios" ∧
  dom (∅ : gmap string (option filter)) ⊆ ({["a_filter"]} : gset string) ∧
  ∃ r, FurtherRuns.on Sample.requests_get_one get_by Sample.client "year"
         (Some "cvfr") "2016" ∅ [] =
         (r, [] ++ request_events Sample.API_URL Sample.client
                     ("ios" +:+ "/" +:+ "year" +:+ "/" +:+ "2016") None).
Proof.
  assert ("year" ∈ ["cve"; "year"; "latest"]) as Hin by compute_done.
  assert (ensure_adv_format_token Sample.ADV_TOKENS (Some "cvfr") = Ok "ios")
    as Htok by reflexivity.
  assert (dom (∅ : gmap string (option filter)) ⊆
            ({["a_filter"]} : gset string)) as Hkw by compute_done.
  split; [exact Hin|]. split; [exact Htok|]. split; [exact Hkw|].
  exact (get_by_simple_topic_request Sample.ADV_TOKENS Sample.API_URL
           Sample.Advisory Sample.advisory_factory Sample.requests_get_one
           Sample.http_error_msg Sample.client "year" (Some "cvfr") "ios"
           "2016" ∅ [] Hin Htok Hkw).
Defined.

Lemma get_by_simple_topic_result_witness :
  let objs := [(Sample.entry "sa-1", "ios")] in
  let st' := request_events Sample.API_URL Sample.client "ios/year/2016" None in
  "year" ∈ ["cve"; "year"; "latest"] ∧
  ensure_adv_format_token Sample.ADV_TOKENS (Some "cvfr") = Ok "ios" ∧
  dom (∅ : gmap string (option filter)) ⊆ ({["a_filter"]} : gset string) ∧
  (FurtherRuns.on Sample.requests_get_one get_by Sample.client "year"
     (Some "cvfr") "2016" ∅ [] = (Ok objs, st') ↔
   ∃ response advisories entries,
     get_request Sample.API_URL Sample.requests_get_one Sample.http_error_msg
       Sample.client ("ios" +:+ "/" +:+ "year" +:+ "/" +:+ "2016") None [] =
       (Ok response, st') ∧
     getitem response "advisories" = Ok advisories ∧
     iterate advisories = Ok entries ∧
     Forall2 (fun adv obj => Sample.advisory_factory adv "ios" = Ok obj)
             entries objs).
Proof.
  intros objs st'.
  assert ("year" ∈ ["cve"; "year"; "latest"]) as Hin by compute_done.
  assert (ensure_adv_format_token Sample.ADV_TOKENS (Some "cvfr") = Ok "ios")
    as Htok by reflexivity.
  assert (dom (∅ : gmap string (option filter)) ⊆
            ({["a_filter"]} : gset string)) as Hkw by compute_done.
  split; [exact Hin|]. split; [exact Htok|]. split; [exact Hkw|].
  exact (get_by_simple_topic_result Sample.ADV_TOKENS Sample.API_URL
           Sample.Advisory Sample.advisory_factory Sample.requests_get_one
           Sample.http_error_msg Sample.client "year" (Some "cvfr") "ios"
           "2016" ∅ [] objs st' Hin Htok Hkw).
Defined.

Lemma get_by_simple_topic_bad_answer_witness :
  let st' :=
    request_events Sample.API_URL Sample.client "cvrf/cve/CVE-1" None in
  "cve" ∈ ["cve"; "year"; "latest"] ∧
  ensure_adv_format_token Sample.ADV_TOKENS (Some "cvrf") = Ok "cvrf" ∧
  dom (∅ : gmap string (option filter)) ⊆ ({["a_filter"]} : gset string) ∧
  get_request Sample.API_URL Sample.requests_get_bare Sample.http_error_msg
    Sample.client ("cvrf" +:+ "/" +:+ "cve" +:+ "/" +:+ "CVE-1") None [] =
    (Ok (JObj []), st') ∧
  (∀ fields, JObj [] = JObj fields → "advisories" ∉ fields.*1 →
     FurtherRuns.on Sample.requests_get_bare get_by Sample.client "cve"
       (Some "cvrf") "CVE-1" ∅ [] = (Raise (KeyError "advisories"), st')) ∧
  (∀ items, JObj [] = JArr items →
     ∃ msg, FurtherRuns.on Sample.requests_get_bare get_by Sample.client "cve"
              (Some "cvrf") "CVE-1" ∅ [] = (Raise (TypeError msg), st')).
Proof.
  intros st'.
  assert ("cve" ∈ ["cve"; "year"; "latest"]) as Hin by compute_done.
  assert (ensure_adv_format_token Sample.ADV_TOKENS (Some "cvrf") = Ok "cvrf")
    as Htok by reflexivity.
  assert (dom (∅ : gmap string (option filter)) ⊆
            ({["a_filter"]} : gset string)) as Hkw by compute_done.
  assert (get_request Sample.API_URL Sample.requests_get_bare
            Sample.http_error_msg Sample.client
            ("cvrf" +:+ "/" +:+ "cve" +:+ "/" +:+ "CVE-1") None [] =
          (Ok (JObj []), st')) as Hreq by (vm_compute; reflexivity).
  split; [exact Hin|]. split; [exact Htok|]. split; [exact Hkw|].
  split; [exact Hreq|].
  exact (get_by_simple_topic_bad_answer Sample.ADV_TOKENS Sample.API_URL
           Sample.Advisory Sample.advisory_factory Sample.requests_get_bare
           Sample.http_error_msg Sample.client "cve" (Some "cvrf") "cvrf"
           "CVE-1" ∅ [] (JObj []) st' Hin Htok Hkw Hreq).
Defined.

Lemma get_by_product_request_witness :
  ensure_adv_format_token Sample.ADV_TOKENS (Some "oval") = Ok "oval" ∧
  ∃ r, FurtherRuns.on Sample.requests_get_one get_by_product Sample.client
         (Some "oval") "router" None [] =
         (r, [] ++ request_events Sample.API_URL Sample.client
                     ("oval" +:+ "/product")
                     (Some {[ "product" := "router" ]})).
Proof.
  assert (ensure_adv_format_token Sample.ADV_TOKENS (Some "oval") = Ok "oval")
    as Htok by reflexivity.
  split; [exact Htok|].
  exact (get_by_product_request Sample.ADV_TOKENS Sample.API_URL
           Sample.Advisory Sample.advisory_factory Sample.requests_get_one
           Sample.http_error_msg Sample.client (Some "oval") "oval" "router"
           None [] Htok).
Defined.

Lemma filtered_requests_witness :
  let f := LastUpdated ["2020-01-01"] in
  ensure_adv_format_token Sample.ADV_TOKENS (Some "oval") = Ok "oval" ∧
  (∃ r, FurtherRuns.on Sample.requests_get_one get_by_all Sample.client
          (Some "oval") "all" (Some f) [] =
          (r, [] ++ request_events Sample.API_URL Sample.client
                      ("oval" +:+ "/" +:+ "all" +:+ "/" +:+ path f)
                      (params f))) ∧
  (∃ r, FurtherRuns.on Sample.requests_get_one get_by_severity Sample.client
          (Some "oval") "all" (Some f) [] =
          (r, [] ++ request_events Sample.API_URL Sample.client
                      ("oval" +:+ "/severity/" +:+ "all" +:+ "/" +:+ path f)
                      (params f))).
Proof.
  intros f.
  assert (ensure_adv_format_token Sample.ADV_TOKENS (Some "oval") = Ok "oval")
    as Htok by reflexivity.
  split; [exact Htok|].
  exact (filtered_requests Sample.ADV_TOKENS Sample.API_URL
           Sample.Advisory Sample.advisory_factory Sample.requests_get_one
           Sample.http_error_msg Sample.client (Some "oval") "oval" "all" f
           [] Htok).
Defined.

Lemma get_by_at_most_one_request_witness :
  let r := Raise (RequestException "ConnectionError") in
  let st' := request_events Sample.API_URL Sample.client "ios/latest/5" None in
  FurtherRuns.on Sample.requests_get_down get_by Sample.client "latest" None
    "5" ∅ [] = (r, st') ∧
  ((st' = [] ∧ ∃ e, r = Raise e) ∨
   ∃ path params,
     st' = [] ++ request_events Sample.API_URL Sample.client path params).
Proof.
  intros r st'.
  assert (FurtherRuns.on Sample.requests_get_down get_by Sample.client
            "latest" None "5" ∅ [] = (r, st')) as Hrun
    by (vm_compute; reflexivity).
  split; [exact Hrun|].
  exact (get_by_at_most_one_request Sample.ADV_TOKENS Sample.API_URL
           Sample.Advisory Sample.advisory_factory Sample.requests_get_down
           Sample.http_error_msg Sample.client "latest" None "5" ∅ [] r st'
           Hrun).
Defined.

Lemma get_by_temporal_filter_witness :
  let dates := Some {[ "startDate" := "2020-01-01";
                       "endDate" := "2020-02-01" ]} in
  let first := Some (FirstPublished ["2020-01-01"; "2020-02-01"]) in
  let last := Some (LastUpdated ["2020-01-01"; "2020-02-01"]) in
  let run := FurtherRuns.on Sample.requests_get_one get_by Sample.client in
  let events := request_events Sample.API_URL Sample.client in
  ensure_adv_format_token Sample.ADV_TOKENS (Some "cvrf") = Ok "cvrf" ∧
  (∃ r, run "all" (Some "cvrf") "high" {[ "a_filter" := first ]} [] =
          (r, [] ++ events ("cvrf" +:+ "/" +:+ "high" +:+ "/firstpublished")
                      dates)) ∧
  (∃ r, run "all" (Some "cvrf") "high" {[ "a_filter" := last ]} [] =
          (r, [] ++ events ("cvrf" +:+ "/" +:+ "high" +:+ "/lastpublished")
                      dates)) ∧
  (∃ r, run "severity" (Some "cvrf") "high" {[ "a_filter" := first ]} [] =
          (r, [] ++ events
                      ("cvrf" +:+ "/severity/" +:+ "high" +:+ "/firstpublished")
                      dates)) ∧
  (∃ r, run "severity" (Some "cvrf") "high" {[ "a_filter" := last ]} [] =
          (r, [] ++ events
                      ("cvrf" +:+ "/severity/" +:+ "high" +:+ "/lastpublished")
                      dates)).
Proof.
  intros dates first last run events.
  assert (ensure_adv_format_token Sample.ADV_TOKENS (Some "cvrf") = Ok "cvrf")
    as Htok by reflexivity.
  split; [exact Htok|].
  exact (get_by_temporal_filter Sample.ADV_TOKENS Sample.API_URL
           Sample.Advisory Sample.advisory_factory Sample.requests_get_one
           Sample.http_error_msg Sample.client (Some "cvrf") "cvrf" "high"
           "2020-01-01" "2020-02-01" [] Htok).
Defined.
